(** * A todo list over Redis: the storage layer, its data model and its
      request handlers, embedded from [app/models.py], [app/storage.py]
      and [app/main.py].

    What is modelled, and how:
    - Python [str] is [string]; a character stands for the code point of
      the same number (code points below 256).
    - A Python value that travels through [json] is a [pyval] (JSON
      numbers with a fraction or an exponent are not represented).
    - The Redis database is a record of the two kinds of keys the program
      uses: string keys (the records, under [TODO:<id>]) and the one list
      at [TODOS_ORDER].  A missing list key and an empty list are the same
      thing in Redis, so the list is a plain [list string].
    - The entries of the index are the identifiers they decode to: the
      program pushes encoded identifiers only, and [b.decode()] on such an
      entry gives the identifier back.  An index entry that is not UTF-8
      text, on which [b.decode()] raises [UnicodeDecodeError], has no
      counterpart in [list string]: every statement below is about an
      index of text entries.
    - A byte string stored under a string key is known by what
      [json.loads] makes of it ([bytes]): nothing, a JSON value, bytes
      that are not text, or text that is not JSON.  [json.dumps] and
      [json.loads] are library functions, taken by their contract.
    - A [Todo] has the types its dataclass annotates.  The constructor
      checks the names of its keyword arguments and not their types, so
      a stored object with the four names and a value of another JSON
      type gives a Python object that is no [Todo.t]; a run that reaches
      one ends in [Untyped], and the statements below say nothing of what
      the program does from there on.
    - Every operation is a state transformer on the database that ends in
      a value or in a Python exception; the database is external, so what
      was written before an exception stays written. *)

From Stdlib Require Import ZArith Ascii String List Lia DecimalString.
From stdpp Require Import base gmap strings list fin_maps.

Open Scope string_scope.

(** ** Python values and their truth value *)

#[warnings="-register-all"]
Inductive pyval :=
| PNone
| PBool (b : bool)
| PInt (z : Z)
| PStr (s : string)
| PList (l : list pyval)
| PDict (d : list (string * pyval)).

(** [bool(v)]: the value a Python [if], [not], [and] or [or] tests. *)
Definition py_truthy (v : pyval) : bool :=
  match v with
  | PNone => false
  | PBool b => b
  | PInt z => negb (z =? 0)%Z
  | PStr s => negb (String.eqb s "")
  | PList l => match l with [] => false | _ => true end
  | PDict d => match d with [] => false | _ => true end
  end.

(** [a or b] *)
Definition py_or (a b : pyval) : pyval := if py_truthy a then a else b.

(** [d.get(k)] on a dict given as its items: the binding of [k], else
    [None]. *)
Fixpoint dict_get (d : list (string * pyval)) (k : string) : pyval :=
  match d with
  | [] => PNone
  | (k', v) :: d' => if String.eqb k' k then v else dict_get d' k
  end.

Definition dict_keys (d : list (string * pyval)) : list string := map fst d.

Fixpoint mem_str (k : string) (l : list string) : bool :=
  match l with
  | [] => false
  | k' :: l' => String.eqb k' k || mem_str k l'
  end.

(** ** [str.strip()] *)

(** [str.isspace] on one character, for code points below 256: TAB, LF,
    VT, FF, CR, the separators FS GS RS US, SPACE, NEL and NBSP. *)
Definition py_isspace (c : ascii) : bool :=
  let n := N_of_ascii c in
  ((9 <=? n) && (n <=? 13) || (28 <=? n) && (n <=? 32)
   || (n =? 133) || (n =? 160))%N.

Fixpoint lstrip (s : string) : string :=
  match s with
  | EmptyString => EmptyString
  | String c s' => if py_isspace c then lstrip s' else s
  end.

Fixpoint rstrip (s : string) : string :=
  match s with
  | EmptyString => EmptyString
  | String c s' =>
      match rstrip s' with
      | EmptyString => if py_isspace c then EmptyString else String c EmptyString
      | r => String c r
      end
  end.

Definition strip (s : string) : string := rstrip (lstrip s).

(** ** Outcomes and the monad of database operations *)

Inductive exn :=
| JSONDecodeError
| UnicodeDecodeError
| TypeError
| AttributeError.

(** [Untyped]: the run has built a [Todo] whose field holds a value that
    is not of the field's annotated type (the keyword call of [Todo] on
    the decoded dict checks names,
    not types).  The embedding follows the annotations and says nothing
    about what happens after that point. *)
Inductive outcome (A : Type) :=
| Ok (a : A)
| Raise (e : exn)
| Untyped.
Arguments Ok {A} a.
Arguments Raise {A} e.
Arguments Untyped {A}.

(** What [json.loads] makes of a stored byte string. *)
Inductive bytes :=
| b_empty                 (* b"" *)
| b_json (v : pyval)      (* a JSON text that decodes to [v] *)
| b_invalid               (* text that is not JSON *)
| b_undecodable.          (* bytes that are not text in the encoding
                             [json.loads] detects (not UTF-8, say) *)

Record redis := Redis {
  strings : gmap string bytes;   (* string keys *)
  todos_order : list string      (* the list at TODOS_ORDER, head first *)
}.

Definition M (A : Type) : Type := redis -> outcome A * redis.

Definition ret {A} (a : A) : M A := fun s => (Ok a, s).

Definition bind {A B} (m : M A) (k : A -> M B) : M B :=
  fun s =>
    match m s with
    | (Ok a, s') => k a s'
    | (Raise e, s') => (Raise e, s')
    | (Untyped, s') => (Untyped, s')
    end.

Definition lift {A} (o : outcome A) : M A := fun s => (o, s).

Notation "'let*' x ':=' c1 'in' c2" := (bind c1 (fun x => c2))
  (at level 10, x name, c1 at level 100, c2 at level 200).

(** ** The [json] module, by its contract *)

Definition json_dumps (v : pyval) : bytes := b_json v.

Definition json_loads (raw : bytes) : outcome pyval :=
  match raw with
  | b_json v => Ok v
  | b_empty => Raise JSONDecodeError
  | b_invalid => Raise JSONDecodeError
  | b_undecodable => Raise UnicodeDecodeError
  end.

(** [not raw] for a byte string: only [b""] is falsy.  (The other falsy
    reply of GET is [None], the missing key.) *)
Definition bytes_falsy (raw : bytes) : bool :=
  match raw with
  | b_empty => true
  | _ => false
  end.

(** ** The Redis commands the program issues *)

Module Commands.

Definition GET (key : string) : M (option bytes) :=
  fun s => (Ok (strings s !! key), s).

Definition SET (key : string) (v : bytes) : M unit :=
  fun s => (Ok tt, Redis (<[key := v]> (strings s)) (todos_order s)).

Definition EXISTS (key : string) : M nat :=
  fun s => (Ok (match strings s !! key with Some _ => 1 | None => 0 end), s).

Definition DEL (key : string) : M nat :=
  fun s => (Ok (match strings s !! key with Some _ => 1 | None => 0 end),
            Redis (base.delete key (strings s)) (todos_order s)).

Definition LPUSH (x : string) : M nat :=
  fun s => (Ok (S (length (todos_order s))),
            Redis (strings s) (x :: todos_order s)).

(** LRANGE start stop, both ends inclusive, negative indices counted
    from the tail. *)
Definition lrange (start stop : Z) (l : list string) : list string :=
  let n := Z.of_nat (length l) in
  let lo := if (start <? 0)%Z then Z.max 0 (n + start) else start in
  let hi := if (stop <? 0)%Z then (n + stop)%Z else Z.min stop (n - 1) in
  if (hi <? lo)%Z then []
  else take (Z.to_nat (hi - lo + 1)) (drop (Z.to_nat lo) l).

Definition LRANGE (start stop : Z) : M (list string) :=
  fun s => (Ok (lrange start stop (todos_order s)), s).

(** Remove the first [n] elements equal to [x]. *)
Fixpoint remove_upto (n : nat) (x : string) (l : list string) : list string :=
  match n, l with
  | O, _ => l
  | _, [] => []
  | S n', y :: l' =>
      if String.eqb y x then remove_upto n' x l' else y :: remove_upto n x l'
  end.

(** LREM count x: all occurrences for [count = 0], the first [count]
    from the head for [count > 0], from the tail for [count < 0]. *)
Definition lrem (count : Z) (x : string) (l : list string) : list string :=
  if (count =? 0)%Z then filter (fun y => y <> x) l
  else if (0 <? count)%Z then remove_upto (Z.to_nat count) x l
  else rev (remove_upto (Z.to_nat (- count)) x (rev l)).

Definition LREM (count : Z) (x : string) : M nat :=
  fun s =>
    let l' := lrem count x (todos_order s) in
    (Ok (length (todos_order s) - length l'), Redis (strings s) l').

Definition DEL_ORDER : M nat :=
  fun s => (Ok (match todos_order s with [] => 0 | _ => 1 end),
            Redis (strings s) []).

End Commands.

(** ** app/models.py *)

Module Todo.

Record t := Todo {
  id : string;
  title : string;
  done : bool;
  created_at : string
}.

(** [Todo.new(title)]; [uuid4] and [utcnow] are what [str(uuid.uuid4())]
    and [datetime.utcnow().isoformat()] return in this call. *)
Definition new (uuid4 utcnow : string) (title : string) : t :=
  Todo uuid4 (strip title) false utcnow.

(** [asdict(self)] *)
Definition to_dict (self : t) : list (string * pyval) :=
  [("id", PStr (id self)); ("title", PStr (title self));
   ("done", PBool (done self)); ("created_at", PStr (created_at self))].

Definition fields : list string := ["id"; "title"; "done"; "created_at"].

(** [Todo] called with [data] unpacked as keyword arguments: [data]
    has to be a mapping whose keys are the four
    field names, no more and no fewer; anything else is a [TypeError]. *)
Definition of_kwargs (data : pyval) : outcome t :=
  match data with
  | PDict d =>
      if forallb (fun k => mem_str k fields) (dict_keys d)
         && forallb (fun f => mem_str f (dict_keys d)) fields
      then
        match dict_get d "id", dict_get d "title",
              dict_get d "done", dict_get d "created_at" with
        | PStr i, PStr ti, PBool b, PStr c => Ok (Todo i ti b c)
        | _, _, _, _ => Untyped
        end
      else Raise TypeError
  | _ => Raise TypeError
  end.

(** [t.done = not t.done] *)
Definition flip_done (self : t) : t :=
  Todo (id self) (title self) (negb (done self)) (created_at self).

End Todo.

(** ** app/storage.py *)

(** The key of the index; [LPUSH], [LRANGE], [LREM] and [DEL_ORDER] above
    are the list commands issued on it.  No record key equals it: record
    keys start with [TODO:]. *)
Definition TODOS_ORDER : string := "TODOS_ORDER".

Module TodoStorage.

Definition _todo_key (todo_id : string) : string := "TODO:" +:+ todo_id.

Definition add (todo : Todo.t) : M Todo.t :=
  let* _ := Commands.SET (_todo_key (Todo.id todo))
                    (json_dumps (PDict (Todo.to_dict todo))) in
  let* _ := Commands.LPUSH (Todo.id todo) in
  ret todo.

Definition get (todo_id : string) : M (option Todo.t) :=
  let* raw := Commands.GET (_todo_key todo_id) in
  match raw with
  | None => ret None
  | Some b =>
      if bytes_falsy b then ret None
      else
        let* data := lift (json_loads b) in
        let* todo := lift (Todo.of_kwargs data) in
        ret (Some todo)
  end.

Fixpoint list_all_loop (ids : list string) (todos : list Todo.t)
  : M (list Todo.t) :=
  match ids with
  | [] => ret todos
  | tid :: ids' =>
      let* t := get tid in
      match t with
      | Some t' => list_all_loop ids' (todos ++ [t'])
      | None => list_all_loop ids' todos
      end
  end.

Definition list_all : M (list Todo.t) :=
  let* ids := Commands.LRANGE 0 (-1) in
  list_all_loop ids [].

Definition update (todo : Todo.t) : M bool :=
  let* n := Commands.EXISTS (_todo_key (Todo.id todo)) in
  if Nat.eqb n 0 then ret false
  else
    let* _ := Commands.SET (_todo_key (Todo.id todo))
                      (json_dumps (PDict (Todo.to_dict todo))) in
    ret true.

Definition toggle (todo_id : string) : M (option Todo.t) :=
  let* t := get todo_id in
  match t with
  | None => ret None
  | Some t0 =>
      let t1 := Todo.flip_done t0 in
      let* _ := update t1 in
      ret (Some t1)
  end.

(** [bool(res and (res[0] or res[1]))] for the two replies. *)
Definition delete_reply (res : list nat) : bool :=
  match res with
  | [n0; n1] => negb (Nat.eqb (if Nat.eqb n0 0 then n1 else n0) 0)
  | _ => false
  end.

Definition delete (todo_id : string) : M bool :=
  let* n0 := Commands.DEL (_todo_key todo_id) in
  let* n1 := Commands.LREM 0 todo_id in
  ret (delete_reply [n0; n1]).

Fixpoint clear_completed_loop (ids : list string) (removed : nat) : M nat :=
  match ids with
  | [] => ret removed
  | tid :: ids' =>
      let* t := get tid in
      match t with
      | Some t' =>
          if Todo.done t' then
            let* ok := delete tid in
            clear_completed_loop ids' (if ok then removed + 1 else removed)
          else clear_completed_loop ids' removed
      | None => clear_completed_loop ids' removed
      end
  end.

Definition clear_completed : M nat :=
  let* ids := Commands.LRANGE 0 (-1) in
  clear_completed_loop ids 0.

Fixpoint reset_all_loop (ids : list string) : M unit :=
  match ids with
  | [] => ret tt
  | tid :: ids' => let* _ := Commands.DEL (_todo_key tid) in reset_all_loop ids'
  end.

Definition reset_all : M unit :=
  let* ids := Commands.LRANGE 0 (-1) in
  let* _ := reset_all_loop ids in
  let* _ := Commands.DEL_ORDER in
  ret tt.

End TodoStorage.

(** ** app/main.py: the request handlers *)

Module main.

(** What a handler answers: a redirect to the index page together with
    the messages it flashed, or a JSON body with its status code. *)
Inductive response :=
| redirect_index (flashed : list string)
| jsonify (status : nat) (body : pyval).

(** [data.get(k)]: only a dict has the method. *)
Definition method_get (data : pyval) (k : string) : outcome pyval :=
  match data with
  | PDict d => Ok (dict_get d k)
  | _ => Raise AttributeError
  end.

(** [v.strip()]: only a str has the method. *)
Definition method_strip (v : pyval) : outcome string :=
  match v with
  | PStr s => Ok (strip s)
  | _ => Raise AttributeError
  end.

(** f-string rendering of a count. *)
Definition str_of_nat (n : nat) : string :=
  NilEmpty.string_of_uint (Nat.to_uint n).

(** POST /add; [form_title] is the form field, if it was sent. *)
Definition add_todo (form_title : option string) (uuid4 utcnow : string)
  : M response :=
  let title := strip (default "" form_title) in
  if String.eqb title "" then
    ret (redirect_index ["Please enter a todo title."])
  else
    let t := Todo.new uuid4 utcnow title in
    let* _ := TodoStorage.add t in
    ret (redirect_index []).

(** POST /toggle/<todo_id> *)
Definition toggle (todo_id : string) : M response :=
  let* t := TodoStorage.toggle todo_id in
  match t with
  | None => ret (redirect_index ["Todo not found."])
  | Some _ => ret (redirect_index [])
  end.

(** POST /delete/<todo_id> *)
Definition delete (todo_id : string) : M response :=
  let* ok := TodoStorage.delete todo_id in
  if ok then ret (redirect_index [])
  else ret (redirect_index ["Todo not found or could not be deleted."]).

(** POST /clear-completed *)
Definition clear_completed : M response :=
  let* removed := TodoStorage.clear_completed in
  ret (redirect_index
         ["Removed " +:+ str_of_nat removed +:+ " completed todo(s)."]).

(** GET /api/todos *)
Definition api_list : M response :=
  let* todos := TodoStorage.list_all in
  ret (jsonify 200 (PList (map (fun t => PDict (Todo.to_dict t)) todos))).

(** POST /api/todos; [body] is what [request.get_json(silent=True)]
    returns: the decoded body, or [None]. *)
Definition api_add (body : pyval) (uuid4 utcnow : string) : M response :=
  let data := py_or body (PDict []) in
  let* v := lift (method_get data "title") in
  let* title := lift (method_strip (py_or v (PStr ""))) in
  if String.eqb title "" then
    ret (jsonify 400 (PDict [("error", PStr "title is required")]))
  else
    let t := Todo.new uuid4 utcnow title in
    let* _ := TodoStorage.add t in
    ret (jsonify 201 (PDict (Todo.to_dict t))).

(** POST /api/todos/<todo_id>/toggle *)
Definition api_toggle (todo_id : string) : M response :=
  let* t := TodoStorage.toggle todo_id in
  match t with
  | None => ret (jsonify 404 (PDict [("error", PStr "not found")]))
  | Some t' => ret (jsonify 200 (PDict (Todo.to_dict t')))
  end.

(** DELETE /api/todos/<todo_id> *)
Definition api_delete (todo_id : string) : M response :=
  let* ok := TodoStorage.delete todo_id in
  if ok then ret (jsonify 200 (PDict [("ok", PBool true)]))
  else ret (jsonify 404 (PDict [("error", PStr "not found")])).

(** POST /api/todos/clear-completed *)
Definition api_clear_completed : M response :=
  let* removed := TodoStorage.clear_completed in
  ret (jsonify 200 (PDict [("removed", PInt (Z.of_nat removed))])).

End main.

(** ** Views of the database used in the statements *)

(** The record [json.loads] and the [Todo] constructor make of a stored
    byte string. *)
Definition deserialize (raw : bytes) : outcome Todo.t :=
  match json_loads raw with
  | Ok data => Todo.of_kwargs data
  | Raise e => Raise e
  | Untyped => Untyped
  end.

(** What [get] answers in a database (it never writes). *)
Definition lookup_todo (s : redis) (todo_id : string) : outcome (option Todo.t) :=
  fst (TodoStorage.get todo_id s).

(** [get] ends in a value for this identifier: a record or absent. *)
Definition resolves (s : redis) (todo_id : string) : Prop :=
  exists o, lookup_todo s todo_id = Ok o.

(** The record of an identifier, when [get] finds one. *)
Definition record_of (s : redis) (todo_id : string) : option Todo.t :=
  match lookup_todo s todo_id with
  | Ok o => o
  | _ => None
  end.

(** The identifier has a record whose completion flag is set. *)
Definition completed (s : redis) (todo_id : string) : bool :=
  match record_of s todo_id with
  | Some t => Todo.done t
  | None => false
  end.

(** The identifier is known: it has a record key or is in the index. *)
Definition known (s : redis) (todo_id : string) : Prop :=
  is_Some (strings s !! TodoStorage._todo_key todo_id)
  \/ todo_id ∈ todos_order s.

Definition empty_db : redis := Redis ∅ [].

(** What the loop of [list_all] gathers over a list of identifiers: the
    records found, in order, or the first failure of a [get]. *)
Fixpoint gather (s : redis) (ids : list string) : outcome (list Todo.t) :=
  match ids with
  | [] => Ok []
  | tid :: ids' =>
      match lookup_todo s tid with
      | Ok o =>
          match gather s ids' with
          | Ok l => Ok (match o with Some t => t :: l | None => l end)
          | Raise e => Raise e
          | Untyped => Untyped
          end
      | Raise e => Raise e
      | Untyped => Untyped
      end
  end.

Definition outcome_map {A B} (f : A -> B) (o : outcome A) : outcome B :=
  match o with
  | Ok a => Ok (f a)
  | Raise e => Raise e
  | Untyped => Untyped
  end.

(** The database after the two commands of [delete]. *)
Definition after_delete (todo_id : string) (s : redis) : redis :=
  Redis (base.delete (TodoStorage._todo_key todo_id) (strings s))
        (filter (fun y => y <> todo_id) (todos_order s)).

(** The key belongs to one of the identifiers [ids] whose record is
    completed in [s]: a key the sweep over [ids] deletes. *)
Definition swept_key (s : redis) (ids : list string) (k : string) : bool :=
  existsb (fun tid => completed s tid && String.eqb (TodoStorage._todo_key tid) k)
          ids.

(** Three todos are added, the first and the last are toggled, then
    [clear_completed] runs, the list is read, and [clear_completed] runs
    once more. *)
Definition three_added_two_toggled (A B C : Todo.t)
  : M (nat * list Todo.t * nat) :=
  let* _ := TodoStorage.add A in
  let* _ := TodoStorage.add B in
  let* _ := TodoStorage.add C in
  let* _ := TodoStorage.toggle (Todo.id A) in
  let* _ := TodoStorage.toggle (Todo.id C) in
  let* removed := TodoStorage.clear_completed in
  let* todos := TodoStorage.list_all in
  let* again := TodoStorage.clear_completed in
  ret (removed, todos, again).

(** ** Sample databases *)

Definition todo_milk : Todo.t := Todo.Todo "a1" "buy milk" false "2024-05-01T09:00:00".
Definition todo_bread : Todo.t := Todo.Todo "b2" "bake bread" true "2024-05-01T09:05:00".
Definition todo_call : Todo.t := Todo.Todo "c3" "call home" false "2024-05-01T09:10:00".

(** Three records, newest first; the middle one is completed. *)
Definition db_three : redis :=
  Redis (<["TODO:c3" := json_dumps (PDict (Todo.to_dict todo_call))]>
         (<["TODO:b2" := json_dumps (PDict (Todo.to_dict todo_bread))]>
          (<["TODO:a1" := json_dumps (PDict (Todo.to_dict todo_milk))]> ∅)))
        ["c3"; "b2"; "a1"].

(** A key whose value is text but not JSON, and one whose JSON is not a
    record. *)
Definition db_malformed : redis :=
  Redis (<["TODO:42" := b_invalid]>
         (<["TODO:43" := b_json (PDict [("id", PStr "43")])]> ∅))
        ["42"; "43"].

(** The index names an identifier whose record is gone. *)
Definition db_dangling : redis :=
  Redis (<["TODO:c3" := json_dumps (PDict (Todo.to_dict todo_call))]>
         (<["TODO:a1" := json_dumps (PDict (Todo.to_dict todo_milk))]> ∅))
        ["c3"; "gone"; "a1"].

(** ** Further views and samples *)

(** Every identifier of the index has a record, and that record is filed
    under its own identifier. *)
Definition index_backed (s : redis) : Prop :=
  forall tid, tid ∈ todos_order s ->
    exists t, lookup_todo s tid = Ok (Some t) /\ Todo.id t = tid.

(** All the characters of a string are whitespace for [str.isspace]. *)
Fixpoint all_space (s : string) : bool :=
  match s with
  | EmptyString => true
  | String c s' => py_isspace c && all_space s'
  end.

Fixpoint last_char (s : string) : option ascii :=
  match s with
  | EmptyString => None
  | String c EmptyString => Some c
  | String _ s' => last_char s'
  end.

Definition first_char (s : string) : option ascii :=
  match s with
  | EmptyString => None
  | String c _ => Some c
  end.

(** A record filed under the identifier x9 whose own [id] field says y7,
    and no key for y7. *)
Definition db_unfiled : redis :=
  Redis (<["TODO:x9" := json_dumps (PDict (Todo.to_dict
            (Todo.Todo "y7" "misfiled" false "2024-05-01T11:00:00")))]> ∅)
        ["x9"].

(** A completed todo, then an identifier whose value is not JSON, then
    another completed todo. *)
Definition db_poisoned : redis :=
  Redis (<["TODO:b2" := json_dumps (PDict (Todo.to_dict todo_bread))]>
         (<["TODO:42" := b_invalid]>
          (<["TODO:e5" := json_dumps (PDict (Todo.to_dict
              (Todo.Todo "e5" "empty bin" true "2024-05-01T09:20:00")))]> ∅)))
        ["b2"; "42"; "e5"].

(** The identifier has a record whose completion flag is false. *)
Definition uncompleted (s : redis) (todo_id : string) : bool :=
  match record_of s todo_id with
  | Some t => negb (Todo.done t)
  | None => false
  end.

(** No stored value is an object with the four field names and a value of
    another type than the dataclass annotates. *)
Definition well_typed (s : redis) : Prop :=
  forall k raw, strings s !! k = Some raw -> deserialize raw <> Untyped.

(** A completed todo, an uncompleted one, an identifier whose value is not
    JSON, and a completed todo after it. *)
Definition db_mixed : redis :=
  Redis (<["TODO:b2" := json_dumps (PDict (Todo.to_dict todo_bread))]>
         (<["TODO:a1" := json_dumps (PDict (Todo.to_dict todo_milk))]>
          (<["TODO:42" := b_invalid]>
           (<["TODO:e5" := json_dumps (PDict (Todo.to_dict
               (Todo.Todo "e5" "empty bin" true "2024-05-01T09:20:00")))]> ∅))))
        ["b2"; "a1"; "42"; "e5"].



(** A key whose value is not text. *)
Definition db_binary : redis :=
  Redis (<["TODO:44" := b_undecodable]> ∅) ["44"].

(** A record in the index and a completed record that the index does not
    name. *)
Definition db_orphan : redis :=
  Redis (<["TODO:a1" := json_dumps (PDict (Todo.to_dict todo_milk))]>
         (<["TODO:b2" := json_dumps (PDict (Todo.to_dict todo_bread))]> ∅))
        ["a1"].

(** * Properties *)

(** Every identifier of a concrete index resolves: try them in turn. *)
Ltac resolve_index :=
  let tid := fresh "tid" in
  let Hin := fresh "Hin" in
  intros tid Hin; unfold resolves;
  repeat (apply elem_of_cons in Hin as [->|Hin]; [eexists; reflexivity|]);
  by apply elem_of_nil in Hin.

(** A concrete identifier is in no place of a concrete index. *)
Ltac not_in_index Hin :=
  repeat (apply elem_of_cons in Hin as [Hin|Hin]; [discriminate Hin|]);
  by apply elem_of_nil in Hin.

(** ** The libraries' side: keys, JSON round trip, list commands *)

Lemma todo_key_inj (a b : string) :
  TodoStorage._todo_key a = TodoStorage._todo_key b -> a = b.
Proof. unfold TodoStorage._todo_key. simpl. intros H. by injection H. Qed.

Lemma todo_key_ne (a b : string) :
  a <> b -> TodoStorage._todo_key a <> TodoStorage._todo_key b.
Proof. intros H E. apply H. by apply todo_key_inj. Qed.

Lemma of_kwargs_to_dict (t : Todo.t) :
  Todo.of_kwargs (PDict (Todo.to_dict t)) = Ok t.
Proof. by destruct t. Qed.

Lemma deserialize_dumps (t : Todo.t) :
  deserialize (json_dumps (PDict (Todo.to_dict t))) = Ok t.
Proof. unfold deserialize. simpl json_loads. apply of_kwargs_to_dict. Qed.

Lemma lrange_all (l : list string) : Commands.lrange 0 (-1) l = l.
Proof.
  unfold Commands.lrange.
  change (0 <? 0)%Z with false. change (-1 <? 0)%Z with true. cbv iota zeta.
  destruct l as [|x l]; [reflexivity|].
  destruct (Z.ltb_spec (Z.of_nat (length (x :: l)) + -1) 0) as [H|H].
  - simpl length in H. lia.
  - replace (Z.to_nat (Z.of_nat (length (x :: l)) + -1 - 0 + 1))
      with (length (x :: l)) by lia.
    change (Z.to_nat 0) with 0%nat. rewrite drop_0. apply firstn_all.
Qed.

Lemma lrem_all (x : string) (l : list string) :
  Commands.lrem 0 x l = filter (fun y => y <> x) l.
Proof. reflexivity. Qed.

Lemma filter_ne_length (x : string) (l : list string) :
  length (filter (fun y => y <> x) l) <= length l.
Proof. apply length_filter. Qed.

Lemma filter_ne_id (x : string) (l : list string) :
  x ∉ l -> filter (fun y => y <> x) l = l.
Proof.
  induction l as [|y l IH]; intros H; [reflexivity|].
  apply not_elem_of_cons in H as [H1 H2].
  rewrite filter_cons_True by congruence. by rewrite IH.
Qed.

Lemma filter_ne_shorter (x : string) (l : list string) :
  x ∈ l -> length (filter (fun y => y <> x) l) < length l.
Proof.
  induction l as [|y l IH]; intros H; [by apply elem_of_nil in H|].
  destruct (decide (y = x)) as [->|Hne].
  - rewrite filter_cons_False by (intros E; by apply E).
    simpl. pose proof (filter_ne_length x l). lia.
  - rewrite filter_cons_True by done. simpl.
    apply elem_of_cons in H as [H|H]; [congruence|].
    specialize (IH H). lia.
Qed.

(** ** [get] reads and never writes *)

Lemma lookup_todo_eq (s : redis) (todo_id : string) :
  lookup_todo s todo_id =
  match strings s !! TodoStorage._todo_key todo_id with
  | None => Ok None
  | Some b_empty => Ok None
  | Some raw =>
      match deserialize raw with
      | Ok t => Ok (Some t)
      | Raise e => Raise e
      | Untyped => Untyped
      end
  end.
Proof.
  unfold lookup_todo, TodoStorage.get, bind, Commands.GET, lift, ret, deserialize.
  destruct (strings s !! TodoStorage._todo_key todo_id) as [[|v| |]|]; simpl;
    try reflexivity.
  destruct (Todo.of_kwargs v); reflexivity.
Qed.

Lemma get_run (s : redis) (todo_id : string) :
  TodoStorage.get todo_id s = (lookup_todo s todo_id, s).
Proof.
  unfold lookup_todo, TodoStorage.get, bind, Commands.GET, lift, ret.
  destruct (strings s !! TodoStorage._todo_key todo_id) as [[|v| |]|]; simpl;
    try reflexivity.
  destruct (Todo.of_kwargs v); reflexivity.
Qed.

Lemma lookup_todo_ext (s s' : redis) (todo_id : string) :
  strings s' !! TodoStorage._todo_key todo_id
  = strings s !! TodoStorage._todo_key todo_id ->
  lookup_todo s' todo_id = lookup_todo s todo_id.
Proof. intros H. rewrite !lookup_todo_eq. by rewrite H. Qed.

Lemma lookup_todo_Some (s : redis) (todo_id : string) (t : Todo.t) :
  lookup_todo s todo_id = Ok (Some t) ->
  is_Some (strings s !! TodoStorage._todo_key todo_id).
Proof.
  rewrite lookup_todo_eq.
  destruct (strings s !! TodoStorage._todo_key todo_id); [eauto|discriminate].
Qed.

(** ** What each storage operation does to the database *)

Lemma add_run (todo : Todo.t) (s : redis) :
  TodoStorage.add todo s =
  (Ok todo,
   Redis (<[TodoStorage._todo_key (Todo.id todo) :=
              json_dumps (PDict (Todo.to_dict todo))]> (strings s))
         (Todo.id todo :: todos_order s)).
Proof. reflexivity. Qed.

Lemma delete_run (todo_id : string) (s : redis) :
  TodoStorage.delete todo_id s =
  (Ok (bool_decide (known s todo_id)),
   Redis (base.delete (TodoStorage._todo_key todo_id) (strings s))
         (filter (fun y => y <> todo_id) (todos_order s))).
Proof.
  unfold TodoStorage.delete, bind, Commands.DEL, Commands.LREM, ret.
  cbn [strings todos_order]. rewrite lrem_all. f_equal. f_equal.
  unfold TodoStorage.delete_reply.
  destruct (decide (known s todo_id)) as [H|H].
  - rewrite (bool_decide_eq_true_2 _ H).
    destruct (strings s !! TodoStorage._todo_key todo_id) as [raw|] eqn:E;
      [reflexivity|].
    destruct H as [[x Hx]|Hin]; [congruence|].
    pose proof (filter_ne_shorter _ _ Hin) as Hlt.
    cbn [Nat.eqb]. apply negb_true_iff, Nat.eqb_neq. lia.
  - rewrite (bool_decide_eq_false_2 _ H).
    destruct (strings s !! TodoStorage._todo_key todo_id) as [raw|] eqn:E.
    + exfalso. apply H. left. rewrite E. eauto.
    + rewrite filter_ne_id, Nat.sub_diag; [reflexivity|].
      intros Hin. apply H. by right.
Qed.

Lemma delete_unknown_same (todo_id : string) (s : redis) :
  ~ known s todo_id ->
  Redis (base.delete (TodoStorage._todo_key todo_id) (strings s))
        (filter (fun y => y <> todo_id) (todos_order s)) = s.
Proof.
  intros H. destruct s as [m l]. cbn [strings todos_order] in *.
  unfold known in H. cbn [strings todos_order] in H. f_equal.
  - apply delete_id.
    destruct (m !! TodoStorage._todo_key todo_id) eqn:E; [|done].
    exfalso. apply H. left. eauto.
  - apply filter_ne_id. intros Hin. apply H. by right.
Qed.

(** ** C1: what [get] answers on missing, empty and malformed values *)

(** C1, counterexample.  The claim says that [get] answers absent when the
    stored value fails to deserialize.  In [db_malformed] the value under
    identifier 42 is text that is not JSON and no record deserializes from
    it, and [get] raises [JSONDecodeError]; the value under identifier 43
    is a JSON object without the fields of a record, and [get] raises
    [TypeError]. *)
Lemma get_malformed_raises :
  strings db_malformed !! TodoStorage._todo_key "42" = Some b_invalid
  /\ (forall t, deserialize b_invalid <> Ok t)
  /\ TodoStorage.get "42" db_malformed = (Raise JSONDecodeError, db_malformed)
  /\ TodoStorage.get "43" db_malformed = (Raise TypeError, db_malformed)
  /\ fst (TodoStorage.get "42" db_malformed) <> Ok None.
Proof.
  repeat split; try reflexivity; try (vm_compute; reflexivity).
  - intros t H. discriminate H.
  - vm_compute. discriminate.
Qed.

(** C1, amended.  [get] never writes.  It answers absent exactly when the
    key does not exist or holds the empty byte string.  A stored value
    that is not empty and from which no record deserializes never gives
    absent: bytes that are not text make [get] raise
    [UnicodeDecodeError], text that is not JSON makes it raise
    [JSONDecodeError], and a JSON value that is not a mapping with exactly
    the four field names makes it raise [TypeError].  The serialization
    of a record gives that record back. *)
Theorem get_absent_or_raises (s : redis) (todo_id : string) :
  let raw := strings s !! TodoStorage._todo_key todo_id in
  snd (TodoStorage.get todo_id s) = s
  /\ (fst (TodoStorage.get todo_id s) = Ok None
      <-> raw = None \/ raw = Some b_empty)
  /\ (raw = Some b_undecodable ->
      fst (TodoStorage.get todo_id s) = Raise UnicodeDecodeError)
  /\ (raw = Some b_invalid ->
      fst (TodoStorage.get todo_id s) = Raise JSONDecodeError)
  /\ (forall v, raw = Some (b_json v) ->
      Todo.of_kwargs v = Raise TypeError ->
      fst (TodoStorage.get todo_id s) = Raise TypeError)
  /\ (forall t, raw = Some (json_dumps (PDict (Todo.to_dict t))) ->
      fst (TodoStorage.get todo_id s) = Ok (Some t)).
Proof.
  intros raw. rewrite get_run. cbn [fst snd]. rewrite lookup_todo_eq.
  fold raw. split; [reflexivity|]. split; [|split; [|split; [|split]]].
  - destruct raw as [[|v| |]|]; unfold deserialize; simpl.
    + split; [by right|done].
    + split; [|by intros [?|?]].
      destruct (Todo.of_kwargs v); discriminate.
    + split; [discriminate|by intros [?|?]].
    + split; [discriminate|by intros [?|?]].
    + split; [by left|done].
  - by intros ->.
  - by intros ->.
  - intros v -> Hv. unfold deserialize. simpl. by rewrite Hv.
  - intros t ->. by rewrite deserialize_dumps.
Qed.

Lemma get_absent_or_raises_witness :
  fst (TodoStorage.get "44" db_binary) = Raise UnicodeDecodeError
  /\ fst (TodoStorage.get "42" db_malformed) = Raise JSONDecodeError
  /\ fst (TodoStorage.get "43" db_malformed) = Raise TypeError
  /\ fst (TodoStorage.get "a1" db_three) = Ok (Some todo_milk)
  /\ fst (TodoStorage.get "zz" db_three) = Ok None.
Proof.
  split; [|split; [|split; [|split]]].
  - apply (get_absent_or_raises db_binary "44"). reflexivity.
  - apply (get_absent_or_raises db_malformed "42"). reflexivity.
  - apply (get_absent_or_raises db_malformed "43") with (v := PDict [("id", PStr "43")]);
      reflexivity.
  - apply (get_absent_or_raises db_three "a1"). reflexivity.
  - apply (get_absent_or_raises db_three "zz"). left. reflexivity.
Defined.

(** ** C2: the answer of [delete] *)

(** C2.  [delete] answers true exactly when the record key existed or the
    identifier occurred in the index before the call; when neither held
    it answers false and the database is unchanged. *)
Theorem delete_inclusive_or (s : redis) (todo_id : string) :
  exists (ok : bool) (s' : redis),
    TodoStorage.delete todo_id s = (Ok ok, s')
    /\ (ok = true <->
        is_Some (strings s !! TodoStorage._todo_key todo_id)
        \/ todo_id ∈ todos_order s)
    /\ (ok = false -> s' = s).
Proof.
  rewrite delete_run. eexists _, _. split; [reflexivity|]. split.
  - apply bool_decide_eq_true.
  - intros H. apply bool_decide_eq_false in H. by apply delete_unknown_same.
Qed.

Lemma delete_inclusive_or_witness :
  TodoStorage.delete "zz" db_three = (Ok false, db_three)
  /\ fst (TodoStorage.delete "a1" db_three) = Ok true.
Proof.
  destruct (delete_inclusive_or db_three "zz") as (ok & s' & Hrun & Hiff & Hsame).
  destruct (delete_inclusive_or db_three "a1") as (ok1 & s1 & Hrun1 & Hiff1 & _).
  split.
  - destruct ok.
    + exfalso. destruct (proj1 Hiff eq_refl) as [[x Hx]|Hin].
      * vm_compute in Hx. discriminate Hx.
      * not_in_index Hin.
    + rewrite Hrun. f_equal. by apply Hsame.
  - rewrite Hrun1. cbn [fst]. f_equal. apply Hiff1. left. vm_compute. eauto.
Defined.

(** ** C6: [toggle] on an identifier without a record *)

(** C6.  When the identifier has no record key, [toggle] answers [None]
    and the database is unchanged; the JSON handler turns that into 404
    "not found" and the page handler into the flashed message. *)
Theorem toggle_absent_unchanged (s : redis) (todo_id : string) :
  strings s !! TodoStorage._todo_key todo_id = None ->
  TodoStorage.toggle todo_id s = (Ok None, s)
  /\ main.api_toggle todo_id s
     = (Ok (main.jsonify 404 (PDict [("error", PStr "not found")])), s)
  /\ main.toggle todo_id s = (Ok (main.redirect_index ["Todo not found."]), s).
Proof.
  intros H.
  assert (Ht : TodoStorage.toggle todo_id s = (Ok None, s)).
  { unfold TodoStorage.toggle, bind. rewrite get_run, lookup_todo_eq, H.
    reflexivity. }
  split; [exact Ht|].
  unfold main.api_toggle, main.toggle, bind. rewrite Ht. by split.
Qed.

Lemma toggle_absent_unchanged_witness :
  TodoStorage.toggle "zz" db_three = (Ok None, db_three)
  /\ main.api_toggle "zz" db_three
     = (Ok (main.jsonify 404 (PDict [("error", PStr "not found")])), db_three)
  /\ main.toggle "zz" db_three
     = (Ok (main.redirect_index ["Todo not found."]), db_three).
Proof. apply (toggle_absent_unchanged db_three "zz"). reflexivity. Defined.

(** ** [str.strip()] is idempotent *)

Lemma rstrip_cons (c : ascii) (s : string) :
  rstrip (String c s) =
  match rstrip s with
  | EmptyString => if py_isspace c then EmptyString else String c EmptyString
  | r => String c r
  end.
Proof. reflexivity. Qed.

Lemma rstrip_idem (s : string) : rstrip (rstrip s) = rstrip s.
Proof.
  induction s as [|c s IH]; [reflexivity|].
  rewrite rstrip_cons. destruct (rstrip s) as [|d r] eqn:E.
  - destruct (py_isspace c) eqn:Ec; [reflexivity|].
    rewrite rstrip_cons. simpl. by rewrite Ec.
  - rewrite rstrip_cons, IH. reflexivity.
Qed.

Lemma lstrip_head (s : string) :
  lstrip s = EmptyString
  \/ exists c u, lstrip s = String c u /\ py_isspace c = false.
Proof.
  induction s as [|c s IH]; [by left|].
  simpl. destruct (py_isspace c) eqn:Ec; [exact IH|]. right. eauto.
Qed.

Lemma rstrip_head (c : ascii) (u : string) :
  py_isspace c = false -> exists r, rstrip (String c u) = String c r.
Proof.
  intros Ec. simpl. destruct (rstrip u); [rewrite Ec|]; eauto.
Qed.

Lemma strip_idem (s : string) : strip (strip s) = strip s.
Proof.
  unfold strip.
  destruct (lstrip_head s) as [->|(c & u & -> & Ec)]; [reflexivity|].
  destruct (rstrip_head c u Ec) as [r Hr].
  assert (Hl : lstrip (rstrip (String c u)) = rstrip (String c u)).
  { rewrite Hr. simpl. by rewrite Ec. }
  rewrite Hl. apply rstrip_idem.
Qed.

Lemma strip_empty : strip "" = "".
Proof. reflexivity. Qed.

(** ** [list_all]: the loop and what it gathers *)

Lemma list_all_loop_run (s : redis) (ids : list string) (todos : list Todo.t) :
  TodoStorage.list_all_loop ids todos s
  = (outcome_map (fun l => (todos ++ l)%list) (gather s ids), s).
Proof.
  revert todos. induction ids as [|tid ids IH]; intros todos.
  - simpl. unfold ret. by rewrite app_nil_r.
  - cbn [TodoStorage.list_all_loop gather]. unfold bind. rewrite get_run.
    destruct (lookup_todo s tid) as [[t|]|e|]; try reflexivity.
    + rewrite IH. destruct (gather s ids); simpl; try reflexivity.
      by rewrite <- app_assoc.
    + rewrite IH. by destruct (gather s ids).
Qed.

Lemma list_all_run (s : redis) :
  TodoStorage.list_all s = (gather s (todos_order s), s).
Proof.
  unfold TodoStorage.list_all, bind, Commands.LRANGE.
  rewrite lrange_all, list_all_loop_run. by destruct (gather s (todos_order s)).
Qed.

Lemma gather_ext (s s' : redis) (ids : list string) :
  (forall tid, tid ∈ ids -> lookup_todo s' tid = lookup_todo s tid) ->
  gather s' ids = gather s ids.
Proof.
  induction ids as [|tid ids IH]; intros H; [reflexivity|].
  simpl. rewrite H by apply list_elem_of_here.
  rewrite IH; [reflexivity|]. intros x Hx. apply H. by apply list_elem_of_further.
Qed.

Lemma gather_resolves (s : redis) (ids : list string) :
  (forall tid, tid ∈ ids -> resolves s tid) ->
  gather s ids = Ok (omap (record_of s) ids).
Proof.
  induction ids as [|tid ids IH]; intros H; [reflexivity|].
  simpl. rewrite IH by (intros x Hx; apply H; by apply list_elem_of_further).
  destruct (H tid (list_elem_of_here _ _)) as [o Ho].
  unfold record_of. rewrite Ho. by destruct o.
Qed.

Lemma lookup_todo_after_add (s : redis) (todo : Todo.t) (tid : string) :
  lookup_todo (snd (TodoStorage.add todo s)) tid
  = if decide (tid = Todo.id todo) then Ok (Some todo) else lookup_todo s tid.
Proof.
  rewrite add_run. cbn [snd]. rewrite !lookup_todo_eq. cbn [strings].
  destruct (decide (tid = Todo.id todo)) as [->|Hne].
  - rewrite lookup_insert_eq. by rewrite deserialize_dumps.
  - rewrite lookup_insert_ne; [reflexivity|]. by apply todo_key_ne.
Qed.

(** ** C7: blank titles are refused before anything is written *)

(** C7.  For a title that is empty once trimmed, the JSON handler answers
    400 "title is required" and the form handler flashes its message;
    neither writes a record nor touches the index: the database is the
    one before the request. *)
Theorem blank_title_rejected (s : redis) (title uuid4 utcnow : string) :
  strip title = "" ->
  main.api_add (PDict [("title", PStr title)]) uuid4 utcnow s
  = (Ok (main.jsonify 400 (PDict [("error", PStr "title is required")])), s)
  /\ main.add_todo (Some title) uuid4 utcnow s
     = (Ok (main.redirect_index ["Please enter a todo title."]), s).
Proof.
  intros H. split.
  - unfold main.api_add, bind, lift, py_or. simpl.
    destruct (String.eqb title "") eqn:E; simpl.
    + reflexivity.
    + rewrite H. reflexivity.
  - unfold main.add_todo. simpl. rewrite H. reflexivity.
Qed.

Lemma blank_title_rejected_witness :
  main.api_add (PDict [("title", PStr "   ")]) "d4" "2024-05-01T10:00:00" db_three
  = (Ok (main.jsonify 400 (PDict [("error", PStr "title is required")])), db_three)
  /\ main.add_todo (Some "   ") "d4" "2024-05-01T10:00:00" db_three
     = (Ok (main.redirect_index ["Please enter a todo title."]), db_three).
Proof. apply (blank_title_rejected db_three "   "). reflexivity. Defined.

(** ** C3: a created todo is read back as it was written *)




(** ** C4: [list_all] follows the index and skips what is absent *)

Lemma add_add_list_all (s : redis) (A B : Todo.t) (l : list Todo.t) :
  Todo.id A <> Todo.id B ->
  Todo.id A ∉ todos_order s ->
  Todo.id B ∉ todos_order s ->
  TodoStorage.list_all s = (Ok l, s) ->
  exists s1 s2,
    TodoStorage.add A s = (Ok A, s1)
    /\ TodoStorage.add B s1 = (Ok B, s2)
    /\ TodoStorage.list_all s2 = (Ok (B :: A :: l), s2).
Proof.
  intros Hne HA HB Hl.
  set (s1 := snd (TodoStorage.add A s)).
  set (s2 := snd (TodoStorage.add B s1)).
  assert (Hord : todos_order s2 = Todo.id B :: Todo.id A :: todos_order s)
    by reflexivity.
  assert (H2 : forall tid, lookup_todo s2 tid
            = if decide (tid = Todo.id B) then Ok (Some B) else lookup_todo s1 tid)
    by apply lookup_todo_after_add.
  assert (H1 : forall tid, lookup_todo s1 tid
            = if decide (tid = Todo.id A) then Ok (Some A) else lookup_todo s tid)
    by apply lookup_todo_after_add.
  exists s1, s2. split; [apply add_run|]. split; [apply add_run|].
  clearbody s2. clearbody s1.
  rewrite list_all_run in Hl. injection Hl as Hl.
  rewrite list_all_run, Hord. f_equal. cbn [gather].
  rewrite H2, decide_True by done.
  rewrite H2, decide_False by done. rewrite H1, decide_True by done.
  rewrite (gather_ext s); [by rewrite Hl|].
  intros tid Hin.
  rewrite H2, decide_False by (intros ->; done).
  rewrite H1, decide_False by (intros ->; done). reflexivity.
Qed.

(** C4, counterexample.  The claim says of every database that
    [list_all] returns the records of the index.  In [db_malformed] the
    index names identifier 42, whose value is not JSON: the [get] inside
    the loop raises and [list_all] ends in [JSONDecodeError] with no list
    at all, although identifier 43 comes after it. *)
Lemma list_all_raises_on_malformed_entry :
  todos_order db_malformed = ["42"; "43"]
  /\ TodoStorage.get "42" db_malformed = (Raise JSONDecodeError, db_malformed)
  /\ TodoStorage.list_all db_malformed = (Raise JSONDecodeError, db_malformed)
  /\ (forall l, fst (TodoStorage.list_all db_malformed) <> Ok l).
Proof.
  split; [reflexivity|]. split; [reflexivity|]. split; [reflexivity|].
  intros l. vm_compute. discriminate.
Qed.

(** C4, amended.  When the [get] of every identifier of the index ends in
    a value (a record or absent), [list_all] answers the records of the
    index, in index order, leaving out the identifiers without a record,
    and writes nothing.  After [add A] and [add B] of two todos with new,
    different identifiers the list is [B], [A] and then what it was; from
    the empty database it is [[B; A]]. *)
Theorem list_all_index_order :
  (forall s,
     (forall tid, tid ∈ todos_order s -> resolves s tid) ->
     TodoStorage.list_all s = (Ok (omap (record_of s) (todos_order s)), s))
  /\ (forall s A B l,
       Todo.id A <> Todo.id B ->
       Todo.id A ∉ todos_order s ->
       Todo.id B ∉ todos_order s ->
       TodoStorage.list_all s = (Ok l, s) ->
       exists s1 s2,
         TodoStorage.add A s = (Ok A, s1)
         /\ TodoStorage.add B s1 = (Ok B, s2)
         /\ TodoStorage.list_all s2 = (Ok (B :: A :: l), s2))
  /\ (forall A B,
       Todo.id A <> Todo.id B ->
       exists s1 s2,
         TodoStorage.add A empty_db = (Ok A, s1)
         /\ TodoStorage.add B s1 = (Ok B, s2)
         /\ TodoStorage.list_all s2 = (Ok [B; A], s2)).
Proof.
  split; [|split].
  - intros s H. rewrite list_all_run. by rewrite gather_resolves.
  - apply add_add_list_all.
  - intros A B Hne. apply add_add_list_all; try done.
    + apply not_elem_of_nil.
    + apply not_elem_of_nil.
Qed.

Lemma list_all_index_order_witness :
  TodoStorage.list_all db_dangling = (Ok [todo_call; todo_milk], db_dangling)
  /\ exists s1 s2,
       TodoStorage.add todo_milk empty_db = (Ok todo_milk, s1)
       /\ TodoStorage.add todo_call s1 = (Ok todo_call, s2)
       /\ TodoStorage.list_all s2 = (Ok [todo_call; todo_milk], s2).
Proof.
  destruct list_all_index_order as (Hall & _ & Hab).
  split.
  - rewrite (Hall db_dangling); [reflexivity|]. resolve_index.
  - apply (Hab todo_milk todo_call). discriminate.
Defined.

(** ** [toggle]: C5 and C9 *)

Lemma update_run (todo : Todo.t) (s : redis) :
  TodoStorage.update todo s =
  match strings s !! TodoStorage._todo_key (Todo.id todo) with
  | Some _ =>
      (Ok true,
       Redis (<[TodoStorage._todo_key (Todo.id todo) :=
                  json_dumps (PDict (Todo.to_dict todo))]> (strings s))
             (todos_order s))
  | None => (Ok false, s)
  end.
Proof.
  unfold TodoStorage.update, bind, Commands.EXISTS, Commands.SET, ret.
  by destruct (strings s !! TodoStorage._todo_key (Todo.id todo)).
Qed.

Lemma flip_done_involutive (t : Todo.t) : Todo.flip_done (Todo.flip_done t) = t.
Proof. destruct t as [i ti d c]. unfold Todo.flip_done. simpl. by rewrite negb_involutive. Qed.

(** One [toggle] of an identifier that has a record: the answer is the
    record with the flag flipped; the index is untouched; the write goes
    to the key named by the record's own [id] field, and only if that key
    exists. *)
Lemma toggle_some (s : redis) (todo_id : string) (t : Todo.t) :
  lookup_todo s todo_id = Ok (Some t) ->
  exists s1,
    TodoStorage.toggle todo_id s = (Ok (Some (Todo.flip_done t)), s1)
    /\ todos_order s1 = todos_order s
    /\ lookup_todo s1 todo_id
       = Ok (Some (if decide (Todo.id t = todo_id) then Todo.flip_done t else t))
    /\ (Todo.id t = todo_id ->
        forall tid, tid <> todo_id -> lookup_todo s1 tid = lookup_todo s tid).
Proof.
  intros Hget.
  unfold TodoStorage.toggle, bind. rewrite get_run, Hget, update_run.
  change (Todo.id (Todo.flip_done t)) with (Todo.id t).
  destruct (strings s !! TodoStorage._todo_key (Todo.id t)) as [raw|] eqn:E.
  - eexists. split; [reflexivity|]. split; [reflexivity|]. split.
    + rewrite lookup_todo_eq. cbn [strings].
      destruct (decide (Todo.id t = todo_id)) as [<-|Hne].
      * rewrite lookup_insert_eq. by rewrite deserialize_dumps.
      * rewrite lookup_insert_ne by (by apply todo_key_ne).
        by rewrite <- lookup_todo_eq.
    + intros <- tid Hne. apply lookup_todo_ext. cbn [strings].
      apply lookup_insert_ne. apply todo_key_ne. congruence.
  - exists s. split; [reflexivity|]. split; [reflexivity|]. split.
    + destruct (decide (Todo.id t = todo_id)) as [<-|Hne]; [|done].
      apply lookup_todo_Some in Hget as [x Hx]. congruence.
    + done.
Qed.

(** C5.  For an identifier that has a record, two [toggle]s in a row
    leave under that identifier the record that was there, so its
    completion flag is the original one; each [toggle] answers a record,
    and when the record is filed under its own identifier the first one
    stores the flipped flag and the second one answers the original
    record. *)
Theorem toggle_twice_restores (s : redis) (todo_id : string) (t : Todo.t) :
  lookup_todo s todo_id = Ok (Some t) ->
  exists t1 s1 t2 s2 t',
    TodoStorage.toggle todo_id s = (Ok (Some t1), s1)
    /\ TodoStorage.toggle todo_id s1 = (Ok (Some t2), s2)
    /\ TodoStorage.get todo_id s2 = (Ok (Some t'), s2)
    /\ Todo.done t' = Todo.done t
    /\ t' = t
    /\ todos_order s2 = todos_order s
    /\ (Todo.id t = todo_id ->
        Todo.done t1 = negb (Todo.done t)
        /\ lookup_todo s1 todo_id = Ok (Some t1)
        /\ t2 = t).
Proof.
  intros Hget.
  destruct (toggle_some s todo_id t Hget) as (s1 & Hrun1 & Hord1 & Hget1 & _).
  destruct (toggle_some s1 todo_id _ Hget1) as (s2 & Hrun2 & Hord2 & Hget2 & _).
  eexists _, s1, _, s2, t.
  split; [exact Hrun1|]. split; [exact Hrun2|].
  assert (Hback : lookup_todo s2 todo_id = Ok (Some t)).
  { rewrite Hget2. destruct (decide (Todo.id t = todo_id)) as [Heq|Hne].
    - change (Todo.id (Todo.flip_done t)) with (Todo.id t).
      rewrite decide_True by done. by rewrite flip_done_involutive.
    - by rewrite decide_False by done. }
  split; [by rewrite get_run, Hback|]. split; [reflexivity|].
  split; [reflexivity|]. split; [congruence|].
  intros Heq. rewrite decide_True in Hget1 |- * by done.
  split; [reflexivity|]. split; [exact Hget1|]. apply flip_done_involutive.
Qed.

Lemma toggle_twice_restores_witness :
  exists t1 s1 t2 s2 t',
    TodoStorage.toggle "b2" db_three = (Ok (Some t1), s1)
    /\ TodoStorage.toggle "b2" s1 = (Ok (Some t2), s2)
    /\ TodoStorage.get "b2" s2 = (Ok (Some t'), s2)
    /\ Todo.done t' = true.
Proof.
  destruct (toggle_twice_restores db_three "b2" todo_bread)
    as (t1 & s1 & t2 & s2 & t' & H1 & H2 & H3 & H4 & _).
  - reflexivity.
  - exists t1, s1, t2, s2, t'. by repeat split.
Defined.

(** C9.  For an identifier that has a record, [toggle] answers that
    record with the same identifier, title and creation time and the flag
    flipped; the record read back under the identifier afterwards has the
    same identifier, title and creation time as before; the index is
    untouched; and when the record is filed under its own identifier, the
    record read back is the one answered and every other identifier reads
    as before. *)
Theorem toggle_changes_only_flag (s : redis) (todo_id : string) (t : Todo.t) :
  lookup_todo s todo_id = Ok (Some t) ->
  exists t1 s1 t',
    TodoStorage.toggle todo_id s = (Ok (Some t1), s1)
    /\ Todo.id t1 = Todo.id t
    /\ Todo.title t1 = Todo.title t
    /\ Todo.created_at t1 = Todo.created_at t
    /\ Todo.done t1 = negb (Todo.done t)
    /\ TodoStorage.get todo_id s1 = (Ok (Some t'), s1)
    /\ Todo.id t' = Todo.id t
    /\ Todo.title t' = Todo.title t
    /\ Todo.created_at t' = Todo.created_at t
    /\ todos_order s1 = todos_order s
    /\ (Todo.id t = todo_id ->
        t' = t1
        /\ forall tid, tid <> todo_id -> lookup_todo s1 tid = lookup_todo s tid).
Proof.
  intros Hget.
  destruct (toggle_some s todo_id t Hget) as (s1 & Hrun & Hord & Hget1 & Hframe).
  exists (Todo.flip_done t), s1,
    (if decide (Todo.id t = todo_id) then Todo.flip_done t else t).
  split; [exact Hrun|]. do 4 (split; [reflexivity|]).
  split; [by rewrite get_run, Hget1|].
  destruct (decide (Todo.id t = todo_id)) as [Heq|Hne].
  - do 3 (split; [reflexivity|]). split; [exact Hord|].
    intros _. split; [reflexivity|]. by apply Hframe.
  - do 3 (split; [reflexivity|]). split; [exact Hord|]. intros Heq. done.
Qed.

Lemma toggle_changes_only_flag_witness :
  exists t1 s1 t',
    TodoStorage.toggle "a1" db_three = (Ok (Some t1), s1)
    /\ TodoStorage.get "a1" s1 = (Ok (Some t'), s1)
    /\ t' = Todo.Todo "a1" "buy milk" true "2024-05-01T09:00:00".
Proof.
  destruct (toggle_changes_only_flag db_three "a1" todo_milk)
    as (t1 & s1 & t' & H1 & Hi & Ht & Hc & Hd & H2 & _ & _ & _ & _ & H3).
  - reflexivity.
  - exists t1, s1, t'. split; [exact H1|]. split; [exact H2|].
    destruct (H3 eq_refl) as [-> _].
    destruct t1 as [i ti d c]. simpl in *. congruence.
Defined.

(** ** [clear_completed]: the sweep, C8 and C10 *)

Lemma filter_all_true {A} (P : A -> Prop) `{!forall x, Decision (P x)} (l : list A) :
  (forall x, P x) -> filter P l = l.
Proof.
  intros Hall. induction l as [|x l IH]; [reflexivity|].
  rewrite filter_cons_True by apply Hall. by rewrite IH.
Qed.

Lemma filter_iff_in {A} (P Q : A -> Prop)
    `{!forall x, Decision (P x)} `{!forall x, Decision (Q x)} (l : list A) :
  (forall x, x ∈ l -> (P x <-> Q x)) -> filter P l = filter Q l.
Proof.
  induction l as [|x l IH]; intros Hiff; [reflexivity|].
  assert (Hl : filter P l = filter Q l).
  { apply IH. intros y Hy. apply Hiff. by apply list_elem_of_further. }
  destruct (decide (P x)) as [Hp|Hp].
  - rewrite !filter_cons_True; [by rewrite Hl| |done].
    apply Hiff; [apply list_elem_of_here|done].
  - rewrite !filter_cons_False; [done| |done].
    intros Hq. apply Hp. apply Hiff; [apply list_elem_of_here|done].
Qed.

Lemma completed_true (s : redis) (tid : string) :
  completed s tid = true <->
  exists t, lookup_todo s tid = Ok (Some t) /\ Todo.done t = true.
Proof.
  unfold completed, record_of. split.
  - destruct (lookup_todo s tid) as [[t|]|e|]; try discriminate. eauto.
  - intros (t & -> & Ht). exact Ht.
Qed.

Lemma completed_ext (s s' : redis) (tid : string) :
  lookup_todo s' tid = lookup_todo s tid -> completed s' tid = completed s tid.
Proof. unfold completed, record_of. by intros ->. Qed.

Lemma delete_run_state (todo_id : string) (s : redis) :
  TodoStorage.delete todo_id s
  = (Ok (bool_decide (known s todo_id)), after_delete todo_id s).
Proof. apply delete_run. Qed.

Lemma lookup_todo_after_delete (s : redis) (todo_id tid : string) :
  lookup_todo (after_delete todo_id s) tid
  = if decide (tid = todo_id) then Ok None else lookup_todo s tid.
Proof.
  rewrite !lookup_todo_eq. unfold after_delete. cbn [strings].
  destruct (decide (tid = todo_id)) as [->|Hne].
  - by rewrite lookup_delete_eq.
  - rewrite lookup_delete_ne; [reflexivity|]. by apply todo_key_ne.
Qed.

Lemma completed_after_delete (s : redis) (todo_id tid : string) :
  completed (after_delete todo_id s) tid
  = if decide (tid = todo_id) then false else completed s tid.
Proof.
  unfold completed, record_of. rewrite lookup_todo_after_delete.
  by destruct (decide (tid = todo_id)).
Qed.

Lemma todo_key_eqb (a b : string) :
  String.eqb (TodoStorage._todo_key a) (TodoStorage._todo_key b) = String.eqb a b.
Proof.
  destruct (String.eqb_spec a b) as [->|Hne].
  - apply String.eqb_refl.
  - apply String.eqb_neq. by apply todo_key_ne.
Qed.

Lemma swept_key_after_delete (s : redis) (todo_id : string) (ids : list string)
    (k : string) :
  k <> TodoStorage._todo_key todo_id ->
  swept_key (after_delete todo_id s) ids k = swept_key s ids k.
Proof.
  intros Hk. unfold swept_key. induction ids as [|x ids IH]; [reflexivity|].
  cbn [existsb]. rewrite IH. f_equal. rewrite completed_after_delete.
  destruct (decide (x = todo_id)) as [->|Hne]; [|reflexivity].
  replace (String.eqb (TodoStorage._todo_key todo_id) k) with false.
  - by rewrite !andb_false_r.
  - symmetry. apply String.eqb_neq. congruence.
Qed.

Lemma swept_key_of_id (s : redis) (ids : list string) (tid : string) :
  swept_key s ids (TodoStorage._todo_key tid)
  = completed s tid && bool_decide (tid ∈ ids).
Proof.
  unfold swept_key. induction ids as [|x ids IH].
  - simpl. by rewrite andb_false_r.
  - cbn [existsb]. rewrite IH, todo_key_eqb.
    destruct (String.eqb_spec x tid) as [->|Hne].
    + rewrite (bool_decide_eq_true_2 (tid ∈ tid :: ids))
        by apply list_elem_of_here.
      rewrite andb_true_r. by destruct (completed s tid).
    + rewrite andb_false_r. cbn [orb]. f_equal.
      apply bool_decide_ext. rewrite elem_of_cons. intuition congruence.
Qed.

(** The sweep over a list of identifiers that all resolve: it ends in a
    count; the index loses the swept identifiers that were completed;
    the keys of those identifiers are deleted and no other key changes;
    the count is the number of keys deleted. *)
Lemma clear_completed_loop_run (ids : list string) :
  forall (s : redis) (removed : nat),
    (forall tid, tid ∈ ids -> resolves s tid) ->
    exists c s',
      TodoStorage.clear_completed_loop ids removed s = (Ok (removed + c), s')
      /\ todos_order s'
         = filter (fun x => ~ (x ∈ ids /\ completed s x = true)) (todos_order s)
      /\ (forall k, strings s' !! k
                    = if swept_key s ids k then None else strings s !! k)
      /\ c + size (strings s') = size (strings s).
Proof.
  induction ids as [|tid ids IH]; intros s removed Hres.
  - exists 0, s. split; [by rewrite Nat.add_0_r|]. split; [|by split].
    symmetry. apply filter_all_true. intros x [Hx _]. by apply elem_of_nil in Hx.
  - assert (Hres' : forall x, x ∈ ids -> resolves s x)
      by (intros x Hx; apply Hres; by apply list_elem_of_further).
    destruct (Hres tid (list_elem_of_here _ _)) as [o Ho].
    cbn [TodoStorage.clear_completed_loop]. unfold bind at 1. rewrite get_run, Ho.
    destruct (completed s tid) eqn:Hc.
    + (* the head is completed: it is deleted *)
      apply completed_true in Hc as Hc'. destruct Hc' as (t & Ht & Hd).
      rewrite Ht in Ho. injection Ho as <-. rewrite Hd.
      unfold bind at 1. rewrite delete_run_state.
      rewrite bool_decide_eq_true_2
        by (left; by apply lookup_todo_Some in Ht).
      destruct (IH (after_delete tid s) (removed + 1)) as (c & s' & Hrun & Hord & Hstr & Hsz).
      { intros x Hx. unfold resolves. rewrite lookup_todo_after_delete.
        destruct (decide (x = tid)); [eauto|by apply Hres']. }
      exists (S c), s'. split; [rewrite Hrun; do 2 f_equal; lia|]. split; [|split].
      * rewrite Hord.
        change (todos_order (after_delete tid s))
          with (filter (fun y => y <> tid) (todos_order s)).
        rewrite list_filter_filter. apply list_filter_iff. intros x.
        rewrite completed_after_delete, elem_of_cons.
        destruct (decide (x = tid)) as [->|Hne]; [|intuition congruence].
        split; [intros [_ H]; by destruct H|].
        intros H. exfalso. apply H. split; [by left|done].
      * intros k. rewrite Hstr. unfold swept_key at 2. cbn [existsb].
        fold (swept_key s ids k). rewrite Hc. cbn [andb].
        destruct (String.eqb_spec (TodoStorage._todo_key tid) k) as [<-|Hk].
        -- cbn [orb]. unfold after_delete. cbn [strings].
           rewrite lookup_delete_eq. by destruct (swept_key _ _ _).
        -- cbn [orb]. rewrite swept_key_after_delete by congruence.
           unfold after_delete. cbn [strings]. by rewrite lookup_delete_ne.
      * unfold after_delete in Hsz. cbn [strings] in Hsz.
        rewrite map_size_delete_Some in Hsz by (by apply lookup_todo_Some in Ht).
        assert (size (strings s) <> 0).
        { apply lookup_todo_Some in Ht as [x Hx]. intros H0.
          apply map_size_empty_inv in H0. rewrite H0 in Hx.
          by rewrite lookup_empty in Hx. }
        lia.
    + (* the head is absent or not completed: nothing happens *)
      assert (Hstep : (match o with
                | Some t' =>
                    if Todo.done t' then
                      bind (TodoStorage.delete tid) (fun ok =>
                        TodoStorage.clear_completed_loop ids
                          (if ok then removed + 1 else removed))
                    else TodoStorage.clear_completed_loop ids removed
                | None => TodoStorage.clear_completed_loop ids removed
                end) s = TodoStorage.clear_completed_loop ids removed s).
      { destruct o as [t|]; [|reflexivity].
        assert (Hd : Todo.done t = false).
        { unfold completed, record_of in Hc. by rewrite Ho in Hc. }
        by rewrite Hd. }
      rewrite Hstep.
      destruct (IH s removed Hres') as (c & s' & Hrun & Hord & Hstr & Hsz).
      exists c, s'. split; [exact Hrun|]. split; [|split; [|exact Hsz]].
      * rewrite Hord. apply list_filter_iff. intros x. rewrite elem_of_cons.
        split.
        -- intros H [[->|Hx] Hcx]; [congruence|]. by apply H.
        -- intros H [Hx Hcx]. apply H. split; [by right|done].
      * intros k. rewrite Hstr. unfold swept_key at 2. cbn [existsb].
        by rewrite Hc.
Qed.

Lemma clear_completed_run (s : redis) :
  (forall tid, tid ∈ todos_order s -> resolves s tid) ->
  exists n s',
    TodoStorage.clear_completed s = (Ok n, s')
    /\ todos_order s' = filter (fun x => completed s x = false) (todos_order s)
    /\ (forall tid, lookup_todo s' tid
                    = if completed s tid && bool_decide (tid ∈ todos_order s)
                      then Ok None else lookup_todo s tid)
    /\ n + size (strings s') = size (strings s).
Proof.
  intros Hres.
  destruct (clear_completed_loop_run (todos_order s) s 0 Hres)
    as (c & s' & Hrun & Hord & Hstr & Hsz).
  exists c, s'. split; [|split; [|split; [|exact Hsz]]].
  - unfold TodoStorage.clear_completed, bind, Commands.LRANGE.
    rewrite lrange_all. exact Hrun.
  - rewrite Hord. apply filter_iff_in. intros x Hx. split.
    + intros H. destruct (completed s x); [|reflexivity].
      exfalso. by apply H.
    + intros H [_ H']. congruence.
  - intros tid. rewrite <- swept_key_of_id, !lookup_todo_eq, Hstr.
    by destruct (swept_key s (todos_order s) (TodoStorage._todo_key tid)).
Qed.

Lemma clear_completed_loop_idle (ids : list string) (s : redis) (removed : nat) :
  (forall tid, tid ∈ ids -> resolves s tid /\ completed s tid = false) ->
  TodoStorage.clear_completed_loop ids removed s = (Ok removed, s).
Proof.
  induction ids as [|tid ids IH]; intros H; [reflexivity|].
  destruct (H tid (list_elem_of_here _ _)) as [[o Ho] Hc].
  cbn [TodoStorage.clear_completed_loop]. unfold bind at 1. rewrite get_run, Ho.
  assert (IH' : TodoStorage.clear_completed_loop ids removed s = (Ok removed, s))
    by (apply IH; intros x Hx; apply H; by apply list_elem_of_further).
  destruct o as [t|]; [|exact IH'].
  assert (Hd : Todo.done t = false).
  { unfold completed, record_of in Hc. by rewrite Ho in Hc. }
  by rewrite Hd.
Qed.

Lemma omap_filter_uncompleted (s s' : redis) (l : list string) :
  (forall x, x ∈ l -> completed s x = false -> record_of s' x = record_of s x) ->
  omap (record_of s') (filter (fun x => completed s x = false) l)
  = filter (fun t => Todo.done t = false) (omap (record_of s) l).
Proof.
  induction l as [|x l IH]; intros H; [reflexivity|].
  assert (IH' := IH (fun y Hy => H y (list_elem_of_further _ _ _ Hy))).
  pose proof (H x (list_elem_of_here _ _)) as Hx.
  unfold completed in *. cbn [omap list_omap]. fold (omap (record_of s) l).
  destruct (record_of s x) as [t|] eqn:Er.
  - destruct (Todo.done t) eqn:Hd.
    + rewrite filter_cons_False by (by rewrite Er, Hd).
      rewrite filter_cons_False by (by rewrite Hd). exact IH'.
    + rewrite filter_cons_True by (by rewrite Er, Hd).
      rewrite filter_cons_True by done.
      cbn [omap list_omap]. rewrite (Hx eq_refl). f_equal. exact IH'.
  - rewrite filter_cons_True by (by rewrite Er).
    cbn [omap list_omap]. rewrite (Hx eq_refl). exact IH'.
Qed.

(** After the sweep: what [list_all] shows and what a second sweep does. *)
Lemma after_clear_completed (s s' : redis) :
  (forall tid, tid ∈ todos_order s -> resolves s tid) ->
  todos_order s' = filter (fun x => completed s x = false) (todos_order s) ->
  (forall tid, lookup_todo s' tid
               = if completed s tid && bool_decide (tid ∈ todos_order s)
                 then Ok None else lookup_todo s tid) ->
  TodoStorage.list_all s'
  = (Ok (filter (fun t => Todo.done t = false)
                (omap (record_of s) (todos_order s))), s')
  /\ TodoStorage.clear_completed s' = (Ok 0, s').
Proof.
  intros Hres Hord Hget.
  assert (Hkeep : forall x, x ∈ todos_order s' ->
            x ∈ todos_order s /\ completed s x = false
            /\ lookup_todo s' x = lookup_todo s x).
  { intros x Hx. rewrite Hord in Hx. apply list_elem_of_filter in Hx as [Hc Hin].
    split; [done|]. split; [done|]. by rewrite Hget, Hc. }
  split.
  - rewrite list_all_run, gather_resolves.
    + rewrite Hord, omap_filter_uncompleted; [reflexivity|].
      intros x Hx Hc. unfold record_of. by rewrite Hget, Hc.
    + intros x Hx. destruct (Hkeep x Hx) as (Hin & _ & Heq).
      unfold resolves. rewrite Heq. by apply Hres.
  - unfold TodoStorage.clear_completed, bind, Commands.LRANGE.
    rewrite lrange_all. apply clear_completed_loop_idle.
    intros x Hx. destruct (Hkeep x Hx) as (Hin & Hc & Heq). split.
    + unfold resolves. rewrite Heq. by apply Hres.
    + by rewrite (completed_ext s s').
Qed.


(** ** Stepping the sweep by hand: three todos, two toggled *)

Lemma bind_ok {A B} (m : M A) (k : A -> M B) (s s' : redis) (a : A) :
  m s = (Ok a, s') -> bind m k s = k a s'.
Proof. intros H. unfold bind. by rewrite H. Qed.

Lemma clear_completed_loop_done (tid : string) (ids : list string)
    (removed : nat) (s : redis) (t : Todo.t) :
  lookup_todo s tid = Ok (Some t) ->
  Todo.done t = true ->
  TodoStorage.clear_completed_loop (tid :: ids) removed s
  = TodoStorage.clear_completed_loop ids (removed + 1) (after_delete tid s).
Proof.
  intros Ht Hd. cbn [TodoStorage.clear_completed_loop].
  unfold bind at 1. rewrite get_run, Ht, Hd.
  unfold bind at 1. rewrite delete_run_state.
  by rewrite bool_decide_eq_true_2 by (left; by apply lookup_todo_Some in Ht).
Qed.

Lemma clear_completed_loop_skip (tid : string) (ids : list string)
    (removed : nat) (s : redis) :
  resolves s tid ->
  completed s tid = false ->
  TodoStorage.clear_completed_loop (tid :: ids) removed s
  = TodoStorage.clear_completed_loop ids removed s.
Proof.
  intros [o Ho] Hc. cbn [TodoStorage.clear_completed_loop].
  unfold bind at 1. rewrite get_run, Ho.
  destruct o as [t|]; [|reflexivity].
  assert (Hd : Todo.done t = false).
  { unfold completed, record_of in Hc. by rewrite Ho in Hc. }
  by rewrite Hd.
Qed.

Lemma three_added_two_toggled_run (A B C : Todo.t) :
  Todo.id A <> Todo.id B ->
  Todo.id A <> Todo.id C ->
  Todo.id B <> Todo.id C ->
  Todo.done A = false ->
  Todo.done B = false ->
  Todo.done C = false ->
  fst (three_added_two_toggled A B C empty_db) = Ok (2, [B], 0).
Proof.
  intros Hab Hac Hbc HdA HdB HdC.
  set (s1 := snd (TodoStorage.add A empty_db)).
  set (s2 := snd (TodoStorage.add B s1)).
  set (s3 := snd (TodoStorage.add C s2)).
  assert (Hord3 : todos_order s3 = [Todo.id C; Todo.id B; Todo.id A]) by reflexivity.
  assert (HA3 : lookup_todo s3 (Todo.id A) = Ok (Some A)).
  { unfold s3, s2, s1. rewrite !lookup_todo_after_add.
    rewrite decide_False by done. rewrite decide_False by done.
    by rewrite decide_True. }
  assert (HB3 : lookup_todo s3 (Todo.id B) = Ok (Some B)).
  { unfold s3, s2. rewrite !lookup_todo_after_add.
    rewrite decide_False by done. by rewrite decide_True. }
  assert (HC3 : lookup_todo s3 (Todo.id C) = Ok (Some C)).
  { unfold s3. rewrite lookup_todo_after_add. by rewrite decide_True. }
  unfold three_added_two_toggled.
  rewrite (bind_ok _ _ _ s1 A) by apply add_run.
  rewrite (bind_ok _ _ _ s2 B) by apply add_run.
  rewrite (bind_ok _ _ _ s3 C) by apply add_run.
  clearbody s3. clear s1 s2.
  destruct (toggle_some s3 _ _ HA3) as (s4 & Hrun4 & Hord4 & HA4 & Hfr4).
  rewrite decide_True in HA4 by done. specialize (Hfr4 eq_refl).
  rewrite (bind_ok _ _ _ _ _ Hrun4).
  assert (HC4 : lookup_todo s4 (Todo.id C) = Ok (Some C))
    by (rewrite Hfr4 by congruence; exact HC3).
  destruct (toggle_some s4 _ _ HC4) as (s5 & Hrun5 & Hord5 & HC5 & Hfr5).
  rewrite decide_True in HC5 by done. specialize (Hfr5 eq_refl).
  rewrite (bind_ok _ _ _ _ _ Hrun5).
  assert (HA5 : lookup_todo s5 (Todo.id A) = Ok (Some (Todo.flip_done A)))
    by (rewrite Hfr5 by congruence; exact HA4).
  assert (HB5 : lookup_todo s5 (Todo.id B) = Ok (Some B)).
  { rewrite Hfr5 by congruence. rewrite Hfr4 by congruence. exact HB3. }
  assert (Hord : todos_order s5 = [Todo.id C; Todo.id B; Todo.id A])
    by congruence.
  clear Hrun4 Hrun5 Hfr4 Hfr5 HA4 HC4 HA3 HB3 HC3 Hord3 Hord4 Hord5.
  clear s3 s4.
  set (s6 := after_delete (Todo.id C) s5).
  set (s7 := after_delete (Todo.id A) s6).
  assert (HB6 : lookup_todo s6 (Todo.id B) = Ok (Some B)).
  { unfold s6. rewrite lookup_todo_after_delete. by rewrite decide_False. }
  assert (HA6 : lookup_todo s6 (Todo.id A) = Ok (Some (Todo.flip_done A))).
  { unfold s6. rewrite lookup_todo_after_delete. by rewrite decide_False. }
  assert (HB7 : lookup_todo s7 (Todo.id B) = Ok (Some B)).
  { unfold s7. rewrite lookup_todo_after_delete. by rewrite decide_False by congruence. }
  assert (Hord7 : todos_order s7 = [Todo.id B]).
  { unfold s7, s6, after_delete. cbn [todos_order]. rewrite Hord.
    rewrite (filter_cons_False _ (Todo.id C)) by (intros H; by apply H).
    rewrite (filter_cons_True _ (Todo.id B)) by done.
    rewrite (filter_cons_True _ (Todo.id A)) by done.
    rewrite filter_nil.
    rewrite (filter_cons_True _ (Todo.id B)) by congruence.
    rewrite (filter_cons_False _ (Todo.id A)) by (intros H; by apply H).
    reflexivity. }
  assert (Hclear : TodoStorage.clear_completed s5 = (Ok 2, s7)).
  { unfold TodoStorage.clear_completed, bind, Commands.LRANGE.
    rewrite lrange_all, Hord.
    rewrite (clear_completed_loop_done _ _ _ _ _ HC5)
      by (simpl; by rewrite HdC).
    rewrite clear_completed_loop_skip.
    - rewrite (clear_completed_loop_done _ _ _ _ _ HA6)
        by (simpl; by rewrite HdA).
      reflexivity.
    - unfold resolves. eauto.
    - unfold completed, record_of. fold s6. by rewrite HB6. }
  assert (Hlist : TodoStorage.list_all s7 = (Ok [B], s7)).
  { rewrite list_all_run, Hord7. cbn [gather]. by rewrite HB7. }
  assert (Hagain : TodoStorage.clear_completed s7 = (Ok 0, s7)).
  { unfold TodoStorage.clear_completed, bind, Commands.LRANGE.
    rewrite lrange_all, Hord7. rewrite clear_completed_loop_skip.
    - reflexivity.
    - unfold resolves. eauto.
    - unfold completed, record_of. by rewrite HB7. }
  rewrite (bind_ok _ _ _ _ _ Hclear).
  rewrite (bind_ok _ _ _ _ _ Hlist).
  rewrite (bind_ok _ _ _ _ _ Hagain).
  reflexivity.
Qed.

(** C8, counterexample.  The claim says of every database that
    [clear_completed] deletes the completed todos and returns a count.
    In [db_poisoned] the index names a completed todo, then an identifier
    whose value is not JSON, then another completed todo: the call ends
    in [JSONDecodeError], so there is no count, and the second completed
    todo still has its record and its place in the index. *)
Lemma clear_completed_raises_on_malformed_entry :
  todos_order db_poisoned = ["b2"; "42"; "e5"]
  /\ completed db_poisoned "e5" = true
  /\ fst (TodoStorage.clear_completed db_poisoned) = Raise JSONDecodeError
  /\ completed (snd (TodoStorage.clear_completed db_poisoned)) "e5" = true
  /\ todos_order (snd (TodoStorage.clear_completed db_poisoned)) = ["42"; "e5"].
Proof. repeat split; vm_compute; reflexivity. Qed.

(** C8, amended.  When the [get] of every identifier of the index ends in
    a value (a record or absent), [clear_completed]
    ends in a count [n] and a database in which: the identifiers of the
    index whose record was completed have lost their record and their
    place in the index, and nothing else changed; [n] is the number of
    records removed; [list_all] shows the records that were not completed;
    and an immediate second [clear_completed] answers 0 and changes
    nothing.  For any three new todos with different identifiers, added to
    the empty database, after two of them are toggled the answer is 2,
    the list is the untoggled todo alone, and the second answer is 0. *)
Theorem clear_completed_counts :
  (forall s,
     (forall tid, tid ∈ todos_order s -> resolves s tid) ->
     exists n s',
       TodoStorage.clear_completed s = (Ok n, s')
       /\ todos_order s'
          = filter (fun x => completed s x = false) (todos_order s)
       /\ (forall tid, lookup_todo s' tid
                       = if completed s tid && bool_decide (tid ∈ todos_order s)
                         then Ok None else lookup_todo s tid)
       /\ n + size (strings s') = size (strings s)
       /\ TodoStorage.list_all s'
          = (Ok (filter (fun t => Todo.done t = false)
                        (omap (record_of s) (todos_order s))), s')
       /\ TodoStorage.clear_completed s' = (Ok 0, s'))
  /\ (forall A B C,
       Todo.id A <> Todo.id B ->
       Todo.id A <> Todo.id C ->
       Todo.id B <> Todo.id C ->
       Todo.done A = false ->
       Todo.done B = false ->
       Todo.done C = false ->
       fst (three_added_two_toggled A B C empty_db) = Ok (2, [B], 0)).
Proof.
  split; [|apply three_added_two_toggled_run].
  intros s Hres.
  destruct (clear_completed_run s Hres) as (n & s' & Hrun & Hord & Hget & Hsz).
  destruct (after_clear_completed s s' Hres Hord Hget) as [Hlist Hagain].
  exists n, s'. by repeat split.
Qed.

Lemma clear_completed_counts_witness :
  (exists s',
     TodoStorage.clear_completed db_three = (Ok 1, s')
     /\ TodoStorage.list_all s' = (Ok [todo_call; todo_milk], s')
     /\ TodoStorage.clear_completed s' = (Ok 0, s'))
  /\ fst (three_added_two_toggled
             (Todo.new "a1" "2024-05-01T09:00:00" "buy milk")
             (Todo.new "b2" "2024-05-01T09:05:00" " bake bread ")
             (Todo.new "c3" "2024-05-01T09:10:00" "call home") empty_db)
     = Ok (2, [Todo.Todo "b2" "bake bread" false "2024-05-01T09:05:00"], 0).
Proof.
  split.
  - destruct (proj1 clear_completed_counts db_three)
      as (n & s' & Hrun & Hord & Hget & Hsz & Hlist & Hagain).
    + resolve_index.
    + exists s'. split; [|split; [exact Hlist|exact Hagain]].
      rewrite Hrun. f_equal. f_equal.
      assert (Hn : TodoStorage.clear_completed db_three
                   = (Ok 1, snd (TodoStorage.clear_completed db_three)))
        by (vm_compute; reflexivity).
      rewrite Hrun in Hn. by injection Hn.
  - apply (proj2 clear_completed_counts); try discriminate; reflexivity.
Defined.

Lemma gather_Ok_resolves (s : redis) (ids : list string) (l : list Todo.t) :
  gather s ids = Ok l -> forall x, x ∈ ids -> resolves s x.
Proof.
  revert l. induction ids as [|tid ids IH]; intros l Hl x Hx.
  - by apply elem_of_nil in Hx.
  - cbn [gather] in Hl.
    destruct (lookup_todo s tid) as [o|e|] eqn:Ho; try discriminate Hl.
    destruct (gather s ids) as [l'|e|] eqn:Hg; try discriminate Hl.
    apply elem_of_cons in Hx as [->|Hx]; [by exists o|]. by apply (IH l').
Qed.

(** The sweep over any list of identifiers, however it ends: a key either
    holds what it held or was the key of a completed todo and is gone,
    and the index is the former index without some identifiers that were
    all completed. *)
Lemma clear_completed_loop_removes_completed (ids : list string) :
  forall (s : redis) (removed : nat),
    (forall k,
       strings (snd (TodoStorage.clear_completed_loop ids removed s)) !! k
       = strings s !! k
       \/ (strings (snd (TodoStorage.clear_completed_loop ids removed s)) !! k
           = None
           /\ exists tid, k = TodoStorage._todo_key tid /\ completed s tid = true))
    /\ exists dead : list string,
         (forall x, x ∈ dead -> completed s x = true)
         /\ todos_order (snd (TodoStorage.clear_completed_loop ids removed s))
            = filter (fun x => x ∉ dead) (todos_order s).
Proof.
  induction ids as [|tid ids IH]; intros s removed.
  - cbn [TodoStorage.clear_completed_loop ret snd]. split; [by left|].
    exists []. split; [intros x Hx; by apply elem_of_nil in Hx|].
    symmetry. apply filter_all_true. intros x. apply not_elem_of_nil.
  - assert (Hstay : (forall k, strings s !! k = strings s !! k
                        \/ (strings s !! k = None
                            /\ exists tid, k = TodoStorage._todo_key tid
                                           /\ completed s tid = true))
                    /\ exists dead : list string,
                         (forall x, x ∈ dead -> completed s x = true)
                         /\ todos_order s = filter (fun x => x ∉ dead) (todos_order s)).
    { split; [by left|]. exists [].
      split; [intros x Hx; by apply elem_of_nil in Hx|].
      symmetry. apply filter_all_true. intros x. apply not_elem_of_nil. }
    cbn [TodoStorage.clear_completed_loop]. unfold bind at 1 3 5.
    rewrite get_run.
    destruct (lookup_todo s tid) as [[t|]|e|] eqn:Ho; try exact Hstay;
      [|apply IH].
    destruct (Todo.done t) eqn:Hd; [|apply IH].
    unfold bind. rewrite delete_run_state.
    assert (Hc : completed s tid = true).
    { unfold completed, record_of. by rewrite Ho. }
    destruct (IH (after_delete tid s)
                 (if bool_decide (known s tid) then removed + 1 else removed))
      as (Hstr & dead & Hdead & Hord).
    split.
    + intros k. destruct (Hstr k) as [Hk|(Hk & tid' & -> & Hc')].
      * unfold after_delete in Hk. cbn [strings] in Hk.
        destruct (decide (k = TodoStorage._todo_key tid)) as [->|Hne].
        -- right. rewrite lookup_delete_eq in Hk. split; [exact Hk|]. eauto.
        -- left. by rewrite lookup_delete_ne in Hk.
      * right. split; [exact Hk|]. exists tid'. split; [reflexivity|].
        rewrite completed_after_delete in Hc'.
        by destruct (decide (tid' = tid)).
    + exists (tid :: dead). split.
      * intros x Hx. apply elem_of_cons in Hx as [->|Hx]; [exact Hc|].
        specialize (Hdead x Hx). rewrite completed_after_delete in Hdead.
        by destruct (decide (x = tid)).
      * rewrite Hord. unfold after_delete. cbn [todos_order].
        rewrite list_filter_filter. apply list_filter_iff. intros x.
        rewrite not_elem_of_cons. tauto.
Qed.

(** C10.  Whatever the database holds and however the call ends,
    [clear_completed] removes no todo whose completion flag is false:
    such a record reads back unchanged and keeps its place in the index,
    and the uncompleted identifiers of the index are the same, in the same
    order, before and after.  Whenever [list_all] answers a list before
    the call, the call ends in a count, the index afterwards is the index
    before without the completed identifiers, and [list_all] afterwards
    answers the list before without the completed records, so the
    identifiers of the uncompleted todos come in the order they had. *)
Theorem clear_completed_keeps_uncompleted (s : redis) :
  let s' := snd (TodoStorage.clear_completed s) in
  (forall tid t,
     lookup_todo s tid = Ok (Some t) ->
     Todo.done t = false ->
     lookup_todo s' tid = Ok (Some t)
     /\ (tid ∈ todos_order s -> tid ∈ todos_order s'))
  /\ filter (fun x => uncompleted s x = true) (todos_order s')
     = filter (fun x => uncompleted s x = true) (todos_order s)
  /\ (forall before,
        TodoStorage.list_all s = (Ok before, s) ->
        exists n after,
          TodoStorage.clear_completed s = (Ok n, s')
          /\ TodoStorage.list_all s' = (Ok after, s')
          /\ after = filter (fun t => Todo.done t = false) before
          /\ map Todo.id after
             = map Todo.id (filter (fun t => Todo.done t = false) before)
          /\ todos_order s'
             = filter (fun x => completed s x = false) (todos_order s)).
Proof.
  intros s'.
  assert (Hs' : s' = snd (TodoStorage.clear_completed_loop (todos_order s) 0 s)).
  { unfold s', TodoStorage.clear_completed, bind, Commands.LRANGE.
    rewrite lrange_all.
    by destruct (TodoStorage.clear_completed_loop (todos_order s) 0 s) as [[?|?|] ?]. }
  destruct (clear_completed_loop_removes_completed (todos_order s) s 0)
    as (Hstr & dead & Hdead & Hord).
  rewrite <- Hs' in Hstr, Hord.
  split; [|split].
  - intros tid t Ht Hd.
    assert (Hc : completed s tid = false).
    { unfold completed, record_of. by rewrite Ht. }
    split.
    + rewrite <- Ht. apply lookup_todo_ext.
      destruct (Hstr (TodoStorage._todo_key tid)) as [Hk|(_ & tid' & Hkey & Hc')];
        [exact Hk|].
      apply todo_key_inj in Hkey as <-. congruence.
    + intros Hin. rewrite Hord. apply list_elem_of_filter. split; [|exact Hin].
      intros Hx. specialize (Hdead tid Hx). congruence.
  - rewrite Hord, list_filter_filter. apply list_filter_iff. intros x.
    split; [by intros [? _]|]. intros Hu. split; [exact Hu|].
    intros Hx. specialize (Hdead x Hx).
    unfold uncompleted, completed in *.
    destruct (record_of s x) as [t|]; [|discriminate].
    rewrite Hdead in Hu. discriminate.
  - intros before Hb. rewrite list_all_run in Hb. injection Hb as Hb.
    assert (Hres : forall tid, tid ∈ todos_order s -> resolves s tid)
      by (by apply (gather_Ok_resolves s _ before)).
    rewrite gather_resolves in Hb by done. injection Hb as <-.
    destruct (clear_completed_run s Hres) as (n & s'' & Hrun & Hord' & Hget & _).
    assert (s'' = s') as -> by (unfold s'; by rewrite Hrun).
    destruct (after_clear_completed s s' Hres Hord' Hget) as [Hlist _].
    exists n, (filter (fun t => Todo.done t = false)
                      (omap (record_of s) (todos_order s))).
    by repeat split.
Qed.

Lemma clear_completed_keeps_uncompleted_witness :
  fst (TodoStorage.clear_completed db_mixed) = Raise JSONDecodeError
  /\ lookup_todo (snd (TodoStorage.clear_completed db_mixed)) "a1"
     = Ok (Some todo_milk)
  /\ "a1" ∈ todos_order (snd (TodoStorage.clear_completed db_mixed))
  /\ exists n after,
       TodoStorage.clear_completed db_three
       = (Ok n, snd (TodoStorage.clear_completed db_three))
       /\ TodoStorage.list_all (snd (TodoStorage.clear_completed db_three))
          = (Ok after, snd (TodoStorage.clear_completed db_three))
       /\ after = [todo_call; todo_milk].
Proof.
  destruct (clear_completed_keeps_uncompleted db_mixed) as (Hkeep & _ & _).
  destruct (Hkeep "a1" todo_milk) as [Hget Hin]; [reflexivity|reflexivity|].
  destruct (clear_completed_keeps_uncompleted db_three) as (_ & _ & Hlist).
  destruct (Hlist [todo_call; todo_bread; todo_milk])
    as (n & after & Hrun & Hafter & Hf & _); [reflexivity|].
  split; [reflexivity|]. split; [exact Hget|]. split.
  - apply Hin. apply list_elem_of_further, list_elem_of_here.
  - exists n, after. split; [exact Hrun|]. split; [exact Hafter|].
    rewrite Hf. reflexivity.
Defined.

(** * Further properties of the code *)

(** ** Keys *)

(** X1.  Two identifiers have the same record key only when they are the
    same identifier, and no record key is the key of the index. *)
Theorem todo_keys_disjoint :
  (forall a b, TodoStorage._todo_key a = TodoStorage._todo_key b <-> a = b)
  /\ (forall a, TodoStorage._todo_key a <> TODOS_ORDER).
Proof.
  split.
  - intros a b. split; [apply todo_key_inj|by intros ->].
  - intros a H. unfold TodoStorage._todo_key, TODOS_ORDER in H. simpl in H.
    discriminate H.
Qed.

(** ** [delete], [update] and [toggle] *)

(** X2.  After [delete] of an identifier, whatever it answered: [get]
    finds nothing under the identifier, the index no longer names it,
    every other identifier reads as before and is in the index exactly
    when it was, and a second [delete] answers false and changes
    nothing. *)
Theorem delete_then_absent (s : redis) (todo_id : string) :
  exists ok s',
    TodoStorage.delete todo_id s = (Ok ok, s')
    /\ TodoStorage.get todo_id s' = (Ok None, s')
    /\ (todo_id ∉ todos_order s')
    /\ (forall x, x <> todo_id ->
        lookup_todo s' x = lookup_todo s x
        /\ (x ∈ todos_order s' <-> x ∈ todos_order s))
    /\ TodoStorage.delete todo_id s' = (Ok false, s').
Proof.
  exists (bool_decide (known s todo_id)). exists (after_delete todo_id s).
  assert (Hgone : lookup_todo (after_delete todo_id s) todo_id = Ok None).
  { rewrite lookup_todo_after_delete. by rewrite decide_True. }
  assert (Hout : todo_id ∉ todos_order (after_delete todo_id s)).
  { unfold after_delete. cbn [todos_order]. rewrite list_elem_of_filter.
    intros [H _]. by apply H. }
  assert (Hunknown : ~ known (after_delete todo_id s) todo_id).
  { intros [[x Hx]|Hin]; [|done]. unfold after_delete in Hx. cbn [strings] in Hx.
    by rewrite lookup_delete_eq in Hx. }
  split; [apply delete_run_state|]. split; [by rewrite get_run, Hgone|].
  split; [exact Hout|]. split.
  - intros x Hx. split.
    + rewrite lookup_todo_after_delete. by rewrite decide_False.
    + unfold after_delete. cbn [todos_order]. rewrite list_elem_of_filter.
      intuition.
  - rewrite delete_run. rewrite bool_decide_eq_false_2 by done.
    f_equal. by apply delete_unknown_same.
Qed.

Lemma lookup_todo_after_update (s : redis) (todo : Todo.t) (tid : string) :
  is_Some (strings s !! TodoStorage._todo_key (Todo.id todo)) ->
  lookup_todo (snd (TodoStorage.update todo s)) tid
  = if decide (tid = Todo.id todo) then Ok (Some todo) else lookup_todo s tid.
Proof.
  intros [raw Hraw]. rewrite update_run, Hraw. cbn [snd].
  rewrite !lookup_todo_eq. cbn [strings].
  destruct (decide (tid = Todo.id todo)) as [->|Hne].
  - rewrite lookup_insert_eq. by rewrite deserialize_dumps.
  - rewrite lookup_insert_ne; [reflexivity|]. by apply todo_key_ne.
Qed.

(** X3.  [update] writes only over a record that exists.  When the todo's
    key is missing it answers false and writes nothing (it does not create
    the record); when the key exists it answers true, [get] then finds
    the todo, and neither the index nor any other identifier changes. *)
Theorem update_only_existing (s : redis) (todo : Todo.t) :
  (strings s !! TodoStorage._todo_key (Todo.id todo) = None ->
   TodoStorage.update todo s = (Ok false, s))
  /\ (is_Some (strings s !! TodoStorage._todo_key (Todo.id todo)) ->
      exists s',
        TodoStorage.update todo s = (Ok true, s')
        /\ TodoStorage.get (Todo.id todo) s' = (Ok (Some todo), s')
        /\ todos_order s' = todos_order s
        /\ forall x, x <> Todo.id todo -> lookup_todo s' x = lookup_todo s x).
Proof.
  split.
  - intros H. by rewrite update_run, H.
  - intros Hsome. exists (snd (TodoStorage.update todo s)).
    pose proof (lookup_todo_after_update s todo) as Hl.
    split; [|split; [|split]].
    + rewrite update_run. by destruct Hsome as [raw ->].
    + rewrite get_run, Hl by done. by rewrite decide_True.
    + rewrite update_run. by destruct Hsome as [raw ->].
    + intros x Hx. rewrite Hl by done. by rewrite decide_False.
Qed.

Lemma update_only_existing_witness :
  TodoStorage.update (Todo.Todo "zz" "ghost" true "2024-05-01T12:00:00") db_three
  = (Ok false, db_three)
  /\ exists s',
       TodoStorage.update (Todo.flip_done todo_milk) db_three = (Ok true, s')
       /\ TodoStorage.get "a1" s' = (Ok (Some (Todo.flip_done todo_milk)), s').
Proof.
  split.
  - apply (update_only_existing db_three). reflexivity.
  - destruct (proj2 (update_only_existing db_three (Todo.flip_done todo_milk)))
      as (s' & Hrun & Hget & _).
    + vm_compute. eauto.
    + exists s'. by split.
Defined.

(** X4.  [toggle] does not look at what [update] answers.  When the record
    found under the identifier carries an [id] field that names a key
    which does not exist, [toggle] answers the record with the flag
    flipped, and the JSON handler answers 200 with it, although nothing
    was written: the database is the one before. *)
Theorem toggle_unfiled_not_stored (s : redis) (todo_id : string) (t : Todo.t) :
  lookup_todo s todo_id = Ok (Some t) ->
  strings s !! TodoStorage._todo_key (Todo.id t) = None ->
  TodoStorage.toggle todo_id s = (Ok (Some (Todo.flip_done t)), s)
  /\ main.api_toggle todo_id s
     = (Ok (main.jsonify 200 (PDict (Todo.to_dict (Todo.flip_done t)))), s)
  /\ main.toggle todo_id s = (Ok (main.redirect_index []), s).
Proof.
  intros Hget Hkey.
  assert (Hrun : TodoStorage.toggle todo_id s = (Ok (Some (Todo.flip_done t)), s)).
  { unfold TodoStorage.toggle, bind. rewrite get_run, Hget, update_run.
    change (Todo.id (Todo.flip_done t)) with (Todo.id t). by rewrite Hkey. }
  split; [exact Hrun|].
  unfold main.api_toggle, main.toggle, bind. rewrite Hrun. by split.
Qed.

Lemma toggle_unfiled_not_stored_witness :
  TodoStorage.toggle "x9" db_unfiled
  = (Ok (Some (Todo.Todo "y7" "misfiled" true "2024-05-01T11:00:00")), db_unfiled)
  /\ TodoStorage.get "x9" db_unfiled
     = (Ok (Some (Todo.Todo "y7" "misfiled" false "2024-05-01T11:00:00")), db_unfiled).
Proof.
  split; [|reflexivity].
  apply (toggle_unfiled_not_stored db_unfiled "x9"
           (Todo.Todo "y7" "misfiled" false "2024-05-01T11:00:00")); reflexivity.
Defined.

(** X5.  [toggle] and [update] never create or remove a key and never
    touch the index, whatever they answer. *)
Theorem toggle_keeps_keys (s : redis) :
  (forall todo_id,
     dom (strings (snd (TodoStorage.toggle todo_id s))) = dom (strings s)
     /\ todos_order (snd (TodoStorage.toggle todo_id s)) = todos_order s)
  /\ (forall todo,
        dom (strings (snd (TodoStorage.update todo s))) = dom (strings s)
        /\ todos_order (snd (TodoStorage.update todo s)) = todos_order s).
Proof.
  assert (Hup : forall todo,
            dom (strings (snd (TodoStorage.update todo s))) = dom (strings s)
            /\ todos_order (snd (TodoStorage.update todo s)) = todos_order s).
  { intros todo. rewrite update_run.
    destruct (strings s !! TodoStorage._todo_key (Todo.id todo)) as [raw|] eqn:E;
      cbn [snd strings todos_order]; [|done].
    split; [|done]. apply dom_insert_lookup_L. eauto. }
  split; [|exact Hup].
  intros todo_id. unfold TodoStorage.toggle, bind. rewrite get_run.
  destruct (lookup_todo s todo_id) as [[t|]|e|]; try done.
  specialize (Hup (Todo.flip_done t)).
  destruct (TodoStorage.update (Todo.flip_done t) s) as [[b|e|] s1]; exact Hup.
Qed.

(** ** [add] does not check the index *)

(** X6.  [add] prepends without looking: adding the same todo twice puts
    its identifier in the index twice and [list_all] shows it twice; one
    [delete] then removes the record and both index entries. *)
Theorem add_twice_delete_once (s : redis) (todo : Todo.t) (l : list Todo.t) :
  Todo.id todo ∉ todos_order s ->
  TodoStorage.list_all s = (Ok l, s) ->
  exists s1 s2 s3,
    TodoStorage.add todo s = (Ok todo, s1)
    /\ TodoStorage.add todo s1 = (Ok todo, s2)
    /\ todos_order s2 = Todo.id todo :: Todo.id todo :: todos_order s
    /\ TodoStorage.list_all s2 = (Ok (todo :: todo :: l), s2)
    /\ TodoStorage.delete (Todo.id todo) s2 = (Ok true, s3)
    /\ todos_order s3 = todos_order s
    /\ TodoStorage.get (Todo.id todo) s3 = (Ok None, s3).
Proof.
  intros Hfresh Hl.
  set (s1 := snd (TodoStorage.add todo s)).
  set (s2 := snd (TodoStorage.add todo s1)).
  assert (Hord : todos_order s2 = Todo.id todo :: Todo.id todo :: todos_order s)
    by reflexivity.
  assert (H2 : forall tid, lookup_todo s2 tid
            = if decide (tid = Todo.id todo) then Ok (Some todo) else lookup_todo s tid).
  { intros tid. unfold s2, s1. rewrite !lookup_todo_after_add.
    by destruct (decide (tid = Todo.id todo)). }
  exists s1, s2, (after_delete (Todo.id todo) s2).
  split; [apply add_run|]. split; [apply add_run|]. split; [exact Hord|].
  clearbody s2. clear s1.
  rewrite list_all_run in Hl. injection Hl as Hl.
  split; [|split; [|split]].
  - rewrite list_all_run, Hord. f_equal. cbn [gather].
    rewrite H2, decide_True by done.
    rewrite (gather_ext s); [by rewrite Hl|].
    intros tid Hin. rewrite H2, decide_False; [done|]. by intros ->.
  - rewrite delete_run_state. rewrite bool_decide_eq_true_2; [done|].
    right. rewrite Hord. apply list_elem_of_here.
  - unfold after_delete. cbn [todos_order]. rewrite Hord.
    rewrite !filter_cons_False by (intros H; by apply H).
    by apply filter_ne_id.
  - rewrite get_run, lookup_todo_after_delete. by rewrite decide_True.
Qed.

Lemma add_twice_delete_once_witness :
  exists s2,
    snd (TodoStorage.add todo_milk (snd (TodoStorage.add todo_milk empty_db))) = s2
    /\ TodoStorage.list_all s2 = (Ok [todo_milk; todo_milk], s2)
    /\ snd (TodoStorage.delete "a1" s2) = empty_db.
Proof.
  destruct (add_twice_delete_once empty_db todo_milk [])
    as (s1 & s2 & s3 & H1 & H2 & Hord & Hlist & Hdel & Hord3 & Hget).
  - apply not_elem_of_nil.
  - reflexivity.
  - exists s2. rewrite H1. cbn [snd]. rewrite H2. cbn [snd].
    split; [reflexivity|]. split; [exact Hlist|].
    injection H1 as <-. injection H2 as <-. vm_compute. reflexivity.
Defined.

(** ** [reset_all] *)

Lemma reset_all_loop_run (ids : list string) :
  forall s,
    exists s',
      TodoStorage.reset_all_loop ids s = (Ok tt, s')
      /\ todos_order s' = todos_order s
      /\ forall tid, lookup_todo s' tid
                     = if bool_decide (tid ∈ ids) then Ok None else lookup_todo s tid.
Proof.
  induction ids as [|x ids IH]; intros s.
  - exists s. split; [reflexivity|]. split; [reflexivity|].
    intros tid. rewrite bool_decide_eq_false_2; [done|]. apply not_elem_of_nil.
  - set (s1 := Redis (base.delete (TodoStorage._todo_key x) (strings s))
                     (todos_order s)).
    destruct (IH s1) as (s' & Hrun & Hord & Hget).
    exists s'. split; [|split; [exact Hord|]].
    + cbn [TodoStorage.reset_all_loop]. unfold bind, Commands.DEL. exact Hrun.
    + intros tid. rewrite Hget.
      destruct (decide (tid = x)) as [->|Hne].
      * rewrite (bool_decide_eq_true_2 (x ∈ x :: ids)) by apply list_elem_of_here.
        destruct (bool_decide (x ∈ ids)); [done|].
        rewrite lookup_todo_eq. unfold s1. cbn [strings].
        by rewrite lookup_delete_eq.
      * replace (bool_decide (tid ∈ x :: ids)) with (bool_decide (tid ∈ ids))
          by (apply bool_decide_ext; rewrite elem_of_cons; intuition congruence).
        destruct (bool_decide (tid ∈ ids)); [done|].
        apply lookup_todo_ext. unfold s1. cbn [strings].
        apply lookup_delete_ne. by apply todo_key_ne.
Qed.

(** X7.  [reset_all] reads no record value: over an index of text
    entries it ends normally whatever the record keys hold, malformed
    values included.  It empties the index and deletes the record of
    every identifier the index named; a record the index did not name
    stays.  Afterwards [list_all] is empty and [clear_completed]
    answers 0. *)
Theorem reset_all_clears_indexed (s : redis) :
  exists s',
    TodoStorage.reset_all s = (Ok tt, s')
    /\ todos_order s' = []
    /\ (forall tid, lookup_todo s' tid
                    = if bool_decide (tid ∈ todos_order s)
                      then Ok None else lookup_todo s tid)
    /\ TodoStorage.list_all s' = (Ok [], s')
    /\ TodoStorage.clear_completed s' = (Ok 0, s').
Proof.
  destruct (reset_all_loop_run (todos_order s) s) as (s1 & Hrun & Hord & Hget).
  exists (Redis (strings s1) []).
  assert (Hsame : forall tid, lookup_todo (Redis (strings s1) []) tid
                              = lookup_todo s1 tid)
    by (intros tid; by apply lookup_todo_ext).
  split; [|split; [reflexivity|split; [|split]]].
  - unfold TodoStorage.reset_all, bind at 1, Commands.LRANGE. rewrite lrange_all.
    unfold bind at 1. rewrite Hrun. reflexivity.
  - intros tid. by rewrite Hsame, Hget.
  - by rewrite list_all_run.
  - unfold TodoStorage.clear_completed, bind, Commands.LRANGE.
    by rewrite lrange_all.
Qed.

(** ** The index and the records stay in step *)

Lemma index_backed_update (s : redis) (todo : Todo.t) :
  index_backed s -> index_backed (snd (TodoStorage.update todo s)).
Proof.
  intros Hinv.
  destruct (strings s !! TodoStorage._todo_key (Todo.id todo)) as [raw|] eqn:E.
  - intros tid Hin.
    assert (Hin' : tid ∈ todos_order s).
    { rewrite update_run, E in Hin. exact Hin. }
    rewrite lookup_todo_after_update by eauto.
    destruct (decide (tid = Todo.id todo)) as [->|Hne]; [eauto|].
    by apply Hinv.
  - by rewrite update_run, E.
Qed.

(** A database whose values are values of [s] or serializations of
    records holds no wrongly typed object if [s] holds none. *)
Lemma well_typed_from (s s' : redis) :
  (forall k raw, strings s' !! k = Some raw ->
     strings s !! k = Some raw
     \/ exists t, raw = json_dumps (PDict (Todo.to_dict t))) ->
  well_typed s -> well_typed s'.
Proof.
  intros Hsub Hs k raw Hk. destruct (Hsub k raw Hk) as [Hold|[t ->]].
  - by apply (Hs k).
  - by rewrite deserialize_dumps.
Qed.

Lemma well_typed_update (s : redis) (todo : Todo.t) :
  well_typed s -> well_typed (snd (TodoStorage.update todo s)).
Proof.
  intros Hs. rewrite update_run.
  destruct (strings s !! TodoStorage._todo_key (Todo.id todo)) as [raw0|];
    [|exact Hs].
  apply (well_typed_from s); [|exact Hs]. cbn [snd strings]. intros k raw Hk.
  apply lookup_insert_Some in Hk as [[_ <-]|[_ Hk]]; eauto.
Qed.

Lemma reset_all_loop_shrinks (ids : list string) :
  forall s k,
    strings (snd (TodoStorage.reset_all_loop ids s)) !! k = strings s !! k
    \/ strings (snd (TodoStorage.reset_all_loop ids s)) !! k = None.
Proof.
  induction ids as [|x ids IH]; intros s k; [by left|].
  cbn [TodoStorage.reset_all_loop]. unfold bind, Commands.DEL.
  set (s1 := Redis (base.delete (TodoStorage._todo_key x) (strings s))
                   (todos_order s)).
  destruct (IH s1 k) as [H|H]; [|by right].
  rewrite H. unfold s1. cbn [strings].
  destruct (decide (k = TodoStorage._todo_key x)) as [->|Hne].
  - right. apply lookup_delete_eq.
  - left. by apply lookup_delete_ne.
Qed.

(** X8.  Take a database in which every identifier of the index has a
    record filed under its own identifier and no stored value is an
    object with the four field names and a wrongly typed value.  Every
    operation of the storage layer ends in such a database again: [add],
    [update], [toggle], [delete], [clear_completed] and [reset_all]; the
    empty database is one. *)
Theorem index_backed_preserved (s : redis) :
  let kept := fun s' => index_backed s' /\ well_typed s' in
  index_backed s ->
  well_typed s ->
  (forall todo, kept (snd (TodoStorage.add todo s)))
  /\ (forall todo, kept (snd (TodoStorage.update todo s)))
  /\ (forall todo_id, kept (snd (TodoStorage.toggle todo_id s)))
  /\ (forall todo_id, kept (snd (TodoStorage.delete todo_id s)))
  /\ kept (snd (TodoStorage.clear_completed s))
  /\ kept (snd (TodoStorage.reset_all s))
  /\ kept empty_db.
Proof.
  intros kept Hinv Htyped. unfold kept.
  assert (Hres : forall tid, tid ∈ todos_order s -> resolves s tid).
  { intros tid Hin. destruct (Hinv tid Hin) as (t & Ht & _). by exists (Some t). }
  split; [|split; [|split; [|split; [|split; [|split]]]]].
  - intros todo. split.
    + intros tid Hin. rewrite lookup_todo_after_add.
      destruct (decide (tid = Todo.id todo)) as [->|Hne]; [eauto|].
      apply Hinv. rewrite add_run in Hin. cbn [snd todos_order] in Hin.
      apply elem_of_cons in Hin as [?|?]; [congruence|done].
    + apply (well_typed_from s); [|exact Htyped].
      rewrite add_run. cbn [snd strings]. intros k raw Hk.
      apply lookup_insert_Some in Hk as [[_ <-]|[_ Hk]]; eauto.
  - intros todo. split; [by apply index_backed_update|by apply well_typed_update].
  - intros todo_id. unfold TodoStorage.toggle, bind. rewrite get_run.
    destruct (lookup_todo s todo_id) as [[t|]|e|]; try (by split).
    pose proof (index_backed_update s (Todo.flip_done t) Hinv) as Hup.
    pose proof (well_typed_update s (Todo.flip_done t) Htyped) as Hty.
    destruct (TodoStorage.update (Todo.flip_done t) s) as [[b|e|] s1]; by split.
  - intros todo_id. rewrite delete_run_state. cbn [snd]. split.
    + intros tid Hin. unfold after_delete in Hin. cbn [todos_order] in Hin.
      apply list_elem_of_filter in Hin as [Hne Hin].
      rewrite lookup_todo_after_delete, decide_False by done. by apply Hinv.
    + apply (well_typed_from s); [|exact Htyped].
      unfold after_delete. cbn [strings]. intros k raw Hk.
      apply lookup_delete_Some in Hk as [_ Hk]. by left.
  - split.
    + destruct (clear_completed_run s Hres) as (n & s' & Hrun & Hord & Hget & _).
      rewrite Hrun. cbn [snd]. intros tid Hin.
      rewrite Hord in Hin. apply list_elem_of_filter in Hin as [Hc Hin].
      rewrite Hget, Hc. by apply Hinv.
    + apply (well_typed_from s); [|exact Htyped]. intros k raw Hk. left.
      assert (Hs' : snd (TodoStorage.clear_completed s)
                    = snd (TodoStorage.clear_completed_loop (todos_order s) 0 s)).
      { unfold TodoStorage.clear_completed, bind, Commands.LRANGE.
        rewrite lrange_all.
        by destruct (TodoStorage.clear_completed_loop (todos_order s) 0 s)
          as [[?|?|] ?]. }
      rewrite Hs' in Hk.
      destruct (clear_completed_loop_removes_completed (todos_order s) s 0)
        as [Hstr _].
      destruct (Hstr k) as [H|[H _]]; congruence.
  - assert (Hs' : snd (TodoStorage.reset_all s)
                  = Redis (strings (snd (TodoStorage.reset_all_loop (todos_order s) s)))
                          []).
    { destruct (reset_all_loop_run (todos_order s) s) as (s1 & Hrun & _ & _).
      unfold TodoStorage.reset_all, bind at 1, Commands.LRANGE. rewrite lrange_all.
      unfold bind at 1. rewrite Hrun. reflexivity. }
    rewrite Hs'. split.
    + intros tid Hin. by apply elem_of_nil in Hin.
    + apply (well_typed_from s); [|exact Htyped]. cbn [strings].
      intros k raw Hk. left.
      destruct (reset_all_loop_shrinks (todos_order s) s k) as [H|H]; congruence.
  - split.
    + intros tid Hin. by apply elem_of_nil in Hin.
    + intros k raw Hk. unfold empty_db in Hk. cbn [strings] in Hk.
      by rewrite lookup_empty in Hk.
Qed.

Lemma db_three_backed : index_backed db_three.
Proof.
  intros tid Hin.
  repeat (apply elem_of_cons in Hin as [->|Hin]; [eexists; split; reflexivity|]).
  by apply elem_of_nil in Hin.
Defined.

Lemma db_three_typed : well_typed db_three.
Proof.
  intros k raw Hk. unfold db_three in Hk. cbn [strings] in Hk.
  repeat (apply lookup_insert_Some in Hk as [[_ <-]|[_ Hk]]; [discriminate|]).
  by rewrite lookup_empty in Hk.
Defined.

Lemma index_backed_preserved_witness :
  index_backed (snd (TodoStorage.toggle "a1" db_three))
  /\ well_typed (snd (TodoStorage.toggle "a1" db_three))
  /\ index_backed (snd (TodoStorage.clear_completed db_three)).
Proof.
  destruct (index_backed_preserved db_three db_three_backed db_three_typed)
    as (_ & _ & Htoggle & _ & Hclear & _).
  split; [apply Htoggle|]. split; [apply Htoggle|apply Hclear].
Defined.

(** X9.  In a database where every identifier of the index has a record
    filed under its own identifier, [list_all] does not fail, writes
    nothing and answers one record for each entry of the index: the
    identifiers of the records it lists are the index itself. *)
Theorem list_all_matches_index (s : redis) :
  index_backed s ->
  exists l,
    TodoStorage.list_all s = (Ok l, s)
    /\ map Todo.id l = todos_order s
    /\ length l = length (todos_order s).
Proof.
  intros Hinv. rewrite list_all_run.
  assert (H : exists l, gather s (todos_order s) = Ok l
                        /\ map Todo.id l = todos_order s).
  { revert Hinv. unfold index_backed.
    generalize (todos_order s) as ids.
    induction ids as [|x ids IH]; intros Hinv; [by exists []|].
    destruct (Hinv x (list_elem_of_here _ _)) as (t & Ht & Hid).
    destruct IH as (l & Hl & Hm).
    { intros y Hy. apply Hinv. by apply list_elem_of_further. }
    exists (t :: l). cbn [gather]. rewrite Ht, Hl. split; [done|].
    cbn [map]. by rewrite Hid, Hm. }
  destruct H as (l & Hl & Hm). exists l. rewrite Hl.
  split; [done|]. split; [done|]. by rewrite <- Hm, length_map.
Qed.

Lemma list_all_matches_index_witness :
  exists l,
    TodoStorage.list_all db_three = (Ok l, db_three)
    /\ map Todo.id l = ["c3"; "b2"; "a1"].
Proof.
  destruct (list_all_matches_index db_three db_three_backed) as (l & Hl & Hm & _).
  exists l. by split.
Defined.

(** ** One malformed record in the index *)

Lemma gather_app_raise (s : redis) (pre post : list string) (tid : string)
    (e : exn) :
  (forall x, x ∈ pre -> resolves s x) ->
  lookup_todo s tid = Raise e ->
  gather s (pre ++ tid :: post)%list = Raise e.
Proof.
  intros Hpre Hbad. induction pre as [|x pre IH].
  - cbn [app gather]. by rewrite Hbad.
  - cbn [app gather].
    destruct (Hpre x (list_elem_of_here _ _)) as [o ->].
    rewrite IH; [done|]. intros y Hy. apply Hpre. by apply list_elem_of_further.
Qed.

(** X10.  [list_all] stops at the first identifier of the index whose
    [get] raises: when the identifiers before it resolve, the whole call
    ends in that exception, with nothing written, and so does the JSON
    listing handler; no part of the list is answered. *)
Theorem list_all_fails_on_malformed (s : redis) (pre post : list string)
    (tid : string) (e : exn) :
  todos_order s = (pre ++ tid :: post)%list ->
  (forall x, x ∈ pre -> resolves s x) ->
  lookup_todo s tid = Raise e ->
  TodoStorage.list_all s = (Raise e, s)
  /\ main.api_list s = (Raise e, s).
Proof.
  intros Hord Hpre Hbad.
  assert (Hrun : TodoStorage.list_all s = (Raise e, s)).
  { rewrite list_all_run, Hord. by rewrite (gather_app_raise s pre post tid e). }
  split; [exact Hrun|]. unfold main.api_list, bind. by rewrite Hrun.
Qed.

Lemma list_all_fails_on_malformed_witness :
  TodoStorage.list_all db_poisoned = (Raise JSONDecodeError, db_poisoned)
  /\ main.api_list db_poisoned = (Raise JSONDecodeError, db_poisoned).
Proof.
  apply (list_all_fails_on_malformed db_poisoned ["b2"] ["e5"] "42").
  - reflexivity.
  - resolve_index.
  - reflexivity.
Defined.

Lemma clear_completed_loop_app (l1 l2 : list string) :
  forall (removed : nat) (s : redis),
    TodoStorage.clear_completed_loop (l1 ++ l2)%list removed s
    = bind (TodoStorage.clear_completed_loop l1 removed)
           (TodoStorage.clear_completed_loop l2) s.
Proof.
  induction l1 as [|x l1 IH]; intros removed s; [reflexivity|].
  cbn [app TodoStorage.clear_completed_loop]. unfold bind.
  destruct (TodoStorage.get x s) as [[[t|]|e|] s1]; try reflexivity.
  - destruct (Todo.done t).
    + destruct (TodoStorage.delete x s1) as [[ok|e|] s2]; try reflexivity.
      rewrite IH. reflexivity.
    + rewrite IH. reflexivity.
  - rewrite IH. reflexivity.
Qed.

(** X11.  [clear_completed] is not all-or-nothing.  When the [get] of an
    identifier of the index raises and the identifiers before it resolve,
    the call ends in that exception after having deleted the completed
    todos that come before: those have lost record and index entry, and
    everything else, the completed todos after it included, is as it
    was. *)
Theorem clear_completed_stops_midway (s : redis) (pre post : list string)
    (tid : string) (e : exn) :
  todos_order s = (pre ++ tid :: post)%list ->
  (forall x, x ∈ pre -> resolves s x) ->
  lookup_todo s tid = Raise e ->
  exists s',
    TodoStorage.clear_completed s = (Raise e, s')
    /\ todos_order s'
       = filter (fun x => ~ (x ∈ pre /\ completed s x = true)) (todos_order s)
    /\ (forall x, lookup_todo s' x
                  = if completed s x && bool_decide (x ∈ pre)
                    then Ok None else lookup_todo s x).
Proof.
  intros Hord Hpre Hbad.
  destruct (clear_completed_loop_run pre s 0 Hpre)
    as (c & s' & Hrun & Hord' & Hstr & _).
  assert (Hget : forall x, lookup_todo s' x
                   = if completed s x && bool_decide (x ∈ pre)
                     then Ok None else lookup_todo s x).
  { intros x. rewrite <- swept_key_of_id, !lookup_todo_eq, Hstr.
    by destruct (swept_key s pre (TodoStorage._todo_key x)). }
  exists s'. split; [|split; [exact Hord'|exact Hget]].
  unfold TodoStorage.clear_completed, bind at 1, Commands.LRANGE.
  rewrite lrange_all, Hord, clear_completed_loop_app.
  unfold bind at 1. rewrite Hrun.
  cbn [TodoStorage.clear_completed_loop]. unfold bind at 1.
  rewrite get_run, Hget.
  assert (Hc : completed s tid = false).
  { unfold completed, record_of. by rewrite Hbad. }
  by rewrite Hc, Hbad.
Qed.

Lemma clear_completed_stops_midway_witness :
  exists s',
    TodoStorage.clear_completed db_poisoned = (Raise JSONDecodeError, s')
    /\ todos_order s' = ["42"; "e5"]
    /\ lookup_todo s' "b2" = Ok None
    /\ lookup_todo s' "e5"
       = Ok (Some (Todo.Todo "e5" "empty bin" true "2024-05-01T09:20:00")).
Proof.
  destruct (clear_completed_stops_midway db_poisoned ["b2"] ["e5"] "42"
              JSONDecodeError) as (s' & Hrun & Hord & Hget).
  - reflexivity.
  - resolve_index.
  - reflexivity.
  - exists s'. split; [exact Hrun|]. split; [|split].
    + rewrite Hord. reflexivity.
    + rewrite Hget. reflexivity.
    + rewrite Hget. reflexivity.
Defined.

(** ** The handlers *)

(** X12.  The JSON create handler has three ways to end and no other.  It
    answers 400 with the database untouched; or the body is not what it
    expects and the call ends in [AttributeError], the database
    untouched; or the body is an object whose title is a string that is
    not blank, it answers 201 with the new record and the database is the
    one [add] leaves.  A missing or falsy body, and a missing or falsy
    title, get the 400; a body that is truthy and not an object, and a
    title that is truthy and not a string, get the exception. *)
Theorem api_add_outcomes (body : pyval) (uuid4 utcnow : string) (s : redis) :
  let refused := main.jsonify 400 (PDict [("error", PStr "title is required")]) in
  (main.api_add body uuid4 utcnow s = (Ok refused, s)
   \/ main.api_add body uuid4 utcnow s = (Raise AttributeError, s)
   \/ exists d title,
        body = PDict d
        /\ dict_get d "title" = PStr title
        /\ strip title <> ""
        /\ main.api_add body uuid4 utcnow s
           = (Ok (main.jsonify 201
                    (PDict (Todo.to_dict (Todo.new uuid4 utcnow title)))),
              snd (TodoStorage.add (Todo.new uuid4 utcnow title) s)))
  /\ (py_truthy body = false ->
      main.api_add body uuid4 utcnow s = (Ok refused, s))
  /\ (forall d, body = PDict d -> py_truthy (dict_get d "title") = false ->
      main.api_add body uuid4 utcnow s = (Ok refused, s))
  /\ (py_truthy body = true -> (forall d, body <> PDict d) ->
      main.api_add body uuid4 utcnow s = (Raise AttributeError, s))
  /\ (forall d, body = PDict d ->
      py_truthy (dict_get d "title") = true ->
      (forall title, dict_get d "title" <> PStr title) ->
      main.api_add body uuid4 utcnow s = (Raise AttributeError, s)).
Proof.
  intros refused.
  assert (Hfalsy : py_truthy body = false ->
            main.api_add body uuid4 utcnow s = (Ok refused, s)).
  { intros H. unfold main.api_add, py_or. rewrite H. reflexivity. }
  assert (Hnodict : py_truthy body = true -> (forall d, body <> PDict d) ->
            main.api_add body uuid4 utcnow s = (Raise AttributeError, s)).
  { intros H Hd. unfold main.api_add, py_or. rewrite H.
    destruct body as [|b|z|x|l|d]; try reflexivity. by destruct (Hd d). }
  assert (Hdict : forall d, body = PDict d ->
            main.api_add body uuid4 utcnow s
            = match py_or (dict_get d "title") (PStr "") with
              | PStr title =>
                  if String.eqb (strip title) "" then (Ok refused, s)
                  else (Ok (main.jsonify 201
                              (PDict (Todo.to_dict (Todo.new uuid4 utcnow title)))),
                        snd (TodoStorage.add (Todo.new uuid4 utcnow title) s))
              | _ => (Raise AttributeError, s)
              end).
  { intros d ->. unfold main.api_add. unfold py_or at 1. cbn [py_truthy].
    destruct d as [|kv d].
    - reflexivity.
    - unfold bind at 1, lift at 1. cbn [main.method_get].
      destruct (py_or (dict_get (kv :: d) "title") (PStr "")) as [|b|z|x|l|d'];
        try reflexivity.
      unfold bind at 1, lift at 1. cbn [main.method_strip].
      destruct (String.eqb (strip x) "") eqn:E; [reflexivity|].
      unfold bind, ret. rewrite !add_run. cbn [snd].
      unfold Todo.new. rewrite strip_idem. reflexivity. }
  assert (Hnotitle : forall d, body = PDict d ->
            py_truthy (dict_get d "title") = false ->
            main.api_add body uuid4 utcnow s = (Ok refused, s)).
  { intros d Hb Hf. rewrite (Hdict d Hb). unfold py_or. by rewrite Hf. }
  assert (Hbadtitle : forall d, body = PDict d ->
            py_truthy (dict_get d "title") = true ->
            (forall title, dict_get d "title" <> PStr title) ->
            main.api_add body uuid4 utcnow s = (Raise AttributeError, s)).
  { intros d Hb Ht Hns. rewrite (Hdict d Hb). unfold py_or. rewrite Ht.
    destruct (dict_get d "title") as [|b|z|x|l|d']; try reflexivity.
    by destruct (Hns x). }
  split; [|by repeat split].
  destruct (py_truthy body) eqn:Hb; [|left; by apply Hfalsy].
  destruct body as [|b|z|x|l|d];
    try (right; left; apply Hnodict; [done|discriminate]).
  destruct (py_truthy (dict_get d "title")) eqn:Ht;
    [|left; by apply (Hnotitle d)].
  destruct (dict_get d "title") as [|b|z|x|l|d'] eqn:Hv;
    try (right; left; apply (Hbadtitle d); [done|by rewrite Hv|rewrite Hv; discriminate]).
  rewrite (Hdict d eq_refl). unfold py_or. rewrite Hv, Ht.
  destruct (String.eqb_spec (strip x) "") as [E|E]; [by left|].
  right. right. exists d, x. by repeat split.
Qed.

Lemma api_add_outcomes_witness :
  let refused := main.jsonify 400 (PDict [("error", PStr "title is required")]) in
  main.api_add PNone "d4" "2024-05-01T10:00:00" db_three = (Ok refused, db_three)
  /\ main.api_add (PDict [("name", PStr "x")]) "d4" "2024-05-01T10:00:00" db_three
     = (Ok refused, db_three)
  /\ main.api_add (PList [PStr "x"]) "d4" "2024-05-01T10:00:00" db_three
     = (Raise AttributeError, db_three)
  /\ main.api_add (PDict [("title", PInt 7)]) "d4" "2024-05-01T10:00:00" db_three
     = (Raise AttributeError, db_three).
Proof.
  intros refused. split; [|split; [|split]].
  - apply (api_add_outcomes PNone "d4" "2024-05-01T10:00:00" db_three).
    reflexivity.
  - apply (api_add_outcomes (PDict [("name", PStr "x")]) "d4"
             "2024-05-01T10:00:00" db_three) with (d := [("name", PStr "x")]);
      reflexivity.
  - apply (api_add_outcomes (PList [PStr "x"]) "d4" "2024-05-01T10:00:00" db_three);
      [reflexivity|discriminate].
  - apply (api_add_outcomes (PDict [("title", PInt 7)]) "d4"
             "2024-05-01T10:00:00" db_three) with (d := [("title", PInt 7)]);
      [reflexivity|reflexivity|discriminate].
Defined.

(** X13.  The form create handler either finds the title blank (a missing
    field counts as blank), flashes its message and writes nothing, or
    stores the todo with the trimmed title and redirects without a
    message; the record can then be read under the new identifier. *)
Theorem add_todo_outcomes (form_title : option string) (uuid4 utcnow : string)
    (s : redis) :
  (strip (default "" form_title) = ""
   /\ main.add_todo form_title uuid4 utcnow s
      = (Ok (main.redirect_index ["Please enter a todo title."]), s))
  \/ (exists title s',
        form_title = Some title
        /\ strip title <> ""
        /\ main.add_todo form_title uuid4 utcnow s
           = (Ok (main.redirect_index []), s')
        /\ s' = snd (TodoStorage.add (Todo.new uuid4 utcnow title) s)
        /\ TodoStorage.get uuid4 s'
           = (Ok (Some (Todo.Todo uuid4 (strip title) false utcnow)), s')).
Proof.
  unfold main.add_todo.
  destruct (String.eqb_spec (strip (default "" form_title)) "") as [E|E].
  - left. by split.
  - right. destruct form_title as [title|]; [|by destruct E].
    cbn [default] in *.
    exists title, (snd (TodoStorage.add (Todo.new uuid4 utcnow title) s)).
    split; [done|]. split; [done|]. split; [|split; [done|]].
    + unfold bind, ret. rewrite !add_run. cbn [snd].
      unfold Todo.new. by rewrite strip_idem.
    + rewrite get_run, lookup_todo_after_add. by rewrite decide_True.
Qed.

(** X14.  The delete handlers answer "not found" (404, or the flashed
    message) exactly when the identifier had neither a record key nor an
    index entry, and then the database is untouched; otherwise they answer
    success, and afterwards the identifier has no record and no index
    entry. *)
Theorem delete_handlers (s : redis) (todo_id : string) :
  (known s todo_id
   /\ exists s',
        main.api_delete todo_id s
        = (Ok (main.jsonify 200 (PDict [("ok", PBool true)])), s')
        /\ main.delete todo_id s = (Ok (main.redirect_index []), s')
        /\ TodoStorage.get todo_id s' = (Ok None, s')
        /\ todo_id ∉ todos_order s')
  \/ (~ known s todo_id
      /\ main.api_delete todo_id s
         = (Ok (main.jsonify 404 (PDict [("error", PStr "not found")])), s)
      /\ main.delete todo_id s
         = (Ok (main.redirect_index ["Todo not found or could not be deleted."]),
            s)).
Proof.
  unfold main.api_delete, main.delete, bind. rewrite delete_run_state.
  destruct (decide (known s todo_id)) as [H|H].
  - left. split; [exact H|]. rewrite (bool_decide_eq_true_2 _ H).
    exists (after_delete todo_id s). split; [done|]. split; [done|]. split.
    + rewrite get_run, lookup_todo_after_delete. by rewrite decide_True.
    + unfold after_delete. cbn [todos_order]. rewrite list_elem_of_filter.
      intros [Hne _]. by apply Hne.
  - right. split; [exact H|]. rewrite (bool_decide_eq_false_2 _ H).
    unfold after_delete. rewrite (delete_unknown_same _ _ H). by split.
Qed.

(** ** [Todo.new] and the shape [get] accepts *)

Lemma lstrip_empty_iff (s : string) :
  lstrip s = EmptyString <-> all_space s = true.
Proof.
  induction s as [|c s IH]; [done|].
  simpl. destruct (py_isspace c); [exact IH|]. split; discriminate.
Qed.

Lemma rstrip_empty_iff (s : string) :
  rstrip s = EmptyString <-> all_space s = true.
Proof.
  induction s as [|c s IH]; [done|].
  rewrite rstrip_cons. cbn [all_space].
  destruct (rstrip s) as [|d r].
  - destruct IH as [IH1 _]. rewrite (IH1 eq_refl), andb_true_r.
    destruct (py_isspace c); [done|]. split; discriminate.
  - destruct (all_space s); [destruct IH as [_ IH2]; by specialize (IH2 eq_refl)|].
    rewrite andb_false_r. split; discriminate.
Qed.

Lemma strip_empty_iff (s : string) :
  strip s = EmptyString <-> all_space s = true.
Proof.
  unfold strip. rewrite rstrip_empty_iff. split.
  - intros H. apply lstrip_empty_iff.
    destruct (lstrip_head s) as [E|(c & u & E & Ec)]; [exact E|].
    rewrite E in H. simpl in H. by rewrite Ec in H.
  - intros H. apply lstrip_empty_iff in H. by rewrite H.
Qed.

Lemma rstrip_last (s : string) :
  rstrip s = EmptyString
  \/ exists c, last_char (rstrip s) = Some c /\ py_isspace c = false.
Proof.
  induction s as [|c s IH]; [by left|].
  rewrite rstrip_cons. destruct (rstrip s) as [|d r].
  - destruct (py_isspace c) eqn:Ec; [by left|]. right. exists c. by split.
  - right. destruct IH as [IH|IH]; [discriminate|]. exact IH.
Qed.

(** X15.  The title [Todo.new] stores is trimmed: it is empty exactly when
    the given title is all whitespace, and otherwise it neither starts
    nor ends with a whitespace character.  Trimming beforehand, as the
    handlers do, changes nothing: [Todo.new] of the stored title is the
    same todo. *)
Theorem new_title_trimmed (uuid4 utcnow title : string) :
  let t := Todo.new uuid4 utcnow title in
  (Todo.title t = "" <-> all_space title = true)
  /\ (Todo.title t <> "" ->
      exists c c',
        first_char (Todo.title t) = Some c /\ py_isspace c = false
        /\ last_char (Todo.title t) = Some c' /\ py_isspace c' = false)
  /\ Todo.new uuid4 utcnow (Todo.title t) = t
  /\ Todo.new uuid4 utcnow (strip title) = t.
Proof.
  intros t. unfold t, Todo.new. cbn [Todo.title].
  split; [apply strip_empty_iff|]. split; [|by rewrite strip_idem].
  intros Hne. unfold strip in *.
  destruct (lstrip_head title) as [E|(c & u & E & Ec)].
  - rewrite E in Hne. by destruct Hne.
  - destruct (rstrip_head c u Ec) as [r Hr].
    destruct (rstrip_last (lstrip title)) as [Hl|(c' & Hl & Hc')]; [done|].
    exists c, c'. rewrite E in *. rewrite Hr in *. by repeat split.
Qed.

Lemma new_title_trimmed_witness :
  Todo.title (Todo.new "d4" "2024-05-01T10:00:00" "  water plants ")
  = "water plants"
  /\ exists c c',
       first_char (Todo.title (Todo.new "d4" "2024-05-01T10:00:00" "  water plants "))
       = Some c /\ py_isspace c = false
       /\ last_char (Todo.title (Todo.new "d4" "2024-05-01T10:00:00" "  water plants "))
          = Some c' /\ py_isspace c' = false.
Proof.
  split; [reflexivity|].
  apply (new_title_trimmed "d4" "2024-05-01T10:00:00" "  water plants ").
  discriminate.
Defined.

Lemma forallb_mem_false (f : string -> bool) (l : list string) (x : string) :
  In x l -> f x = false -> forallb f l = false.
Proof.
  intros Hin Hf. destruct (forallb f l) eqn:E; [|reflexivity].
  rewrite forallb_forall in E. by rewrite (E x Hin) in Hf.
Qed.

(** X16.  [get] takes a stored JSON value for a record only if it is an
    object with the four field names and no other key.  A JSON value that
    is not an object, an object that lacks a field, and an object with an
    unknown key each make [get] raise [TypeError]; and whenever [get]
    answers a record, each field of the record is the value the stored
    object has under that field's name.  In no case does [get] write. *)
Theorem get_accepts_exactly_fields (s : redis) (todo_id : string) (v : pyval) :
  strings s !! TodoStorage._todo_key todo_id = Some (b_json v) ->
  ((forall d, v <> PDict d) ->
   TodoStorage.get todo_id s = (Raise TypeError, s))
  /\ (forall d f, v = PDict d -> In f Todo.fields ->
      mem_str f (dict_keys d) = false ->
      TodoStorage.get todo_id s = (Raise TypeError, s))
  /\ (forall d k, v = PDict d -> In k (dict_keys d) ->
      mem_str k Todo.fields = false ->
      TodoStorage.get todo_id s = (Raise TypeError, s))
  /\ (forall t, TodoStorage.get todo_id s = (Ok (Some t), s) ->
      exists d,
        v = PDict d
        /\ dict_get d "id" = PStr (Todo.id t)
        /\ dict_get d "title" = PStr (Todo.title t)
        /\ dict_get d "done" = PBool (Todo.done t)
        /\ dict_get d "created_at" = PStr (Todo.created_at t)).
Proof.
  intros Hraw.
  assert (Hget : TodoStorage.get todo_id s
                 = (match Todo.of_kwargs v with
                    | Ok t => Ok (Some t)
                    | Raise e => Raise e
                    | Untyped => Untyped
                    end, s)).
  { rewrite get_run, lookup_todo_eq, Hraw. reflexivity. }
  rewrite Hget. split; [|split; [|split]].
  - intros Hd. destruct v as [|b|z|x|l|d]; try reflexivity. by destruct (Hd d).
  - intros d f -> Hin Hf. unfold Todo.of_kwargs.
    rewrite (forallb_mem_false _ Todo.fields f Hin Hf), andb_false_r. reflexivity.
  - intros d k -> Hin Hk. unfold Todo.of_kwargs.
    rewrite (forallb_mem_false _ (dict_keys d) k Hin Hk). reflexivity.
  - intros t Ht. destruct v as [|b|z|x|l|d]; try discriminate Ht.
    exists d. split; [reflexivity|]. unfold Todo.of_kwargs in Ht.
    destruct (forallb _ (dict_keys d) && forallb _ Todo.fields);
      [|discriminate Ht].
    destruct (dict_get d "id") as [| | |i| |]; try discriminate Ht.
    destruct (dict_get d "title") as [| | |ti| |]; try discriminate Ht.
    destruct (dict_get d "done") as [|b| | | |]; try discriminate Ht.
    destruct (dict_get d "created_at") as [| | |c| |]; try discriminate Ht.
    injection Ht as <-. by repeat split.
Qed.

Lemma get_accepts_exactly_fields_witness :
  TodoStorage.get "43" db_malformed = (Raise TypeError, db_malformed).
Proof.
  destruct (get_accepts_exactly_fields db_malformed "43" (PDict [("id", PStr "43")]))
    as (_ & Hmissing & _).
  - reflexivity.
  - apply (Hmissing [("id", PStr "43")] "title"); [reflexivity| |reflexivity].
    right. by left.
Defined.

(** ** Round trip of [add] and [delete]; what the sweep does not see *)

(** X17.  Adding a todo under an identifier that is not known and then
    deleting that identifier gives back the database exactly as it was,
    and the [delete] answers true. *)
Theorem add_then_delete_restores (s : redis) (todo : Todo.t) :
  ~ known s (Todo.id todo) ->
  exists s1,
    TodoStorage.add todo s = (Ok todo, s1)
    /\ TodoStorage.delete (Todo.id todo) s1 = (Ok true, s).
Proof.
  intros Hfresh. eexists. split; [apply add_run|].
  rewrite delete_run. f_equal.
  - f_equal. apply bool_decide_eq_true_2. right. apply list_elem_of_here.
  - destruct s as [m l]. cbn [strings todos_order] in *.
    unfold known in Hfresh. cbn [strings todos_order] in Hfresh. f_equal.
    + rewrite delete_insert_eq. apply delete_id.
      destruct (m !! TodoStorage._todo_key (Todo.id todo)) eqn:E; [|done].
      exfalso. apply Hfresh. left. eauto.
    + rewrite filter_cons_False by (intros H; by apply H).
      apply filter_ne_id. intros Hin. apply Hfresh. by right.
Qed.

Lemma add_then_delete_restores_witness :
  exists s1,
    TodoStorage.add (Todo.new "d4" "2024-05-01T10:00:00" "water plants") db_three
    = (Ok (Todo.new "d4" "2024-05-01T10:00:00" "water plants"), s1)
    /\ TodoStorage.delete "d4" s1 = (Ok true, db_three).
Proof.
  apply (add_then_delete_restores db_three
           (Todo.new "d4" "2024-05-01T10:00:00" "water plants")).
  intros [[x Hx]|Hin].
  - vm_compute in Hx. discriminate Hx.
  - not_in_index Hin.
Defined.

(** X18.  [clear_completed] sweeps the index only.  A record that the
    index does not name is still there afterwards, completed or not, and
    is not counted: when no identifier of the index has a completed
    record the answer is 0 and nothing changes. *)
Theorem clear_completed_skips_orphans (s : redis) :
  (forall tid, tid ∈ todos_order s -> resolves s tid) ->
  (forall tid, tid ∉ todos_order s ->
     lookup_todo (snd (TodoStorage.clear_completed s)) tid = lookup_todo s tid)
  /\ ((forall tid, tid ∈ todos_order s -> completed s tid = false) ->
      TodoStorage.clear_completed s = (Ok 0, s)).
Proof.
  intros Hres. split.
  - intros tid Hout.
    destruct (clear_completed_run s Hres) as (n & s' & Hrun & _ & Hget & _).
    rewrite Hrun. cbn [snd]. rewrite Hget.
    rewrite (bool_decide_eq_false_2 _ Hout). by rewrite andb_false_r.
  - intros Hnone. unfold TodoStorage.clear_completed, bind, Commands.LRANGE.
    rewrite lrange_all. apply clear_completed_loop_idle.
    intros tid Hin. split; [by apply Hres|by apply Hnone].
Qed.

Lemma clear_completed_skips_orphans_witness :
  TodoStorage.clear_completed db_orphan = (Ok 0, db_orphan)
  /\ lookup_todo db_orphan "b2" = Ok (Some todo_bread)
  /\ Todo.done todo_bread = true.
Proof.
  split; [|by split].
  apply (clear_completed_skips_orphans db_orphan).
  - resolve_index.
  - intros tid Hin.
    repeat (apply elem_of_cons in Hin as [->|Hin]; [reflexivity|]).
    by apply elem_of_nil in Hin.
Defined.

(** ** The same on the sample databases *)

Lemma delete_then_absent_witness :
  exists s',
    fst (TodoStorage.delete "b2" db_three) = Ok true
    /\ snd (TodoStorage.delete "b2" db_three) = s'
    /\ TodoStorage.get "b2" s' = (Ok None, s')
    /\ lookup_todo s' "a1" = Ok (Some todo_milk)
    /\ TodoStorage.delete "b2" s' = (Ok false, s').
Proof.
  destruct (delete_then_absent db_three "b2")
    as (ok & s' & Hrun & Hget & Hout & Hrest & Hagain).
  exists s'. split; [reflexivity|]. split; [by rewrite Hrun|].
  split; [exact Hget|]. split; [|exact Hagain].
  destruct (Hrest "a1") as [-> _]; [discriminate|reflexivity].
Defined.

Lemma reset_all_clears_indexed_witness :
  (exists s',
     TodoStorage.reset_all db_orphan = (Ok tt, s')
     /\ todos_order s' = []
     /\ lookup_todo s' "a1" = Ok None
     /\ lookup_todo s' "b2" = Ok (Some todo_bread))
  /\ fst (TodoStorage.reset_all db_poisoned) = Ok tt.
Proof.
  split.
  - destruct (reset_all_clears_indexed db_orphan)
      as (s' & Hrun & Hord & Hget & _).
    exists s'. split; [exact Hrun|]. split; [exact Hord|].
    split; rewrite Hget; reflexivity.
  - destruct (reset_all_clears_indexed db_poisoned) as (s' & Hrun & _).
    by rewrite Hrun.
Defined.

Lemma add_todo_outcomes_witness :
  main.add_todo None "d4" "2024-05-01T10:00:00" db_three
  = (Ok (main.redirect_index ["Please enter a todo title."]), db_three)
  /\ exists s',
       main.add_todo (Some " water plants ") "d4" "2024-05-01T10:00:00" db_three
       = (Ok (main.redirect_index []), s')
       /\ TodoStorage.get "d4" s'
          = (Ok (Some (Todo.Todo "d4" "water plants" false "2024-05-01T10:00:00")),
             s').
Proof.
  split.
  - destruct (add_todo_outcomes None "d4" "2024-05-01T10:00:00" db_three)
      as [[_ H]|(title & s' & Hform & _)]; [exact H|discriminate Hform].
  - destruct (add_todo_outcomes (Some " water plants ") "d4"
                "2024-05-01T10:00:00" db_three)
      as [[Hblank _]|(title & s' & Hform & _ & Hrun & _ & Hget)].
    + vm_compute in Hblank. discriminate Hblank.
    + injection Hform as <-. exists s'. split; [exact Hrun|exact Hget].
Defined.

Lemma delete_handlers_witness :
  main.api_delete "zz" db_three
  = (Ok (main.jsonify 404 (PDict [("error", PStr "not found")])), db_three)
  /\ fst (main.api_delete "a1" db_three)
     = Ok (main.jsonify 200 (PDict [("ok", PBool true)])).
Proof.
  split.
  - destruct (delete_handlers db_three "zz") as [[Hk _]|(_ & H & _)]; [|exact H].
    exfalso. destruct Hk as [[x Hx]|Hin].
    + vm_compute in Hx. discriminate Hx.
    + not_in_index Hin.
  - destruct (delete_handlers db_three "a1") as [(_ & s' & H & _)|[Hk _]].
    + by rewrite H.
    + exfalso. apply Hk. left. vm_compute. eauto.
Defined.
